(** * bot-callback: the OAuth2 callback server of [index.js]

    A shallow embedding of the Express application in [src/index.js]
    (the current revision, the second text of the file: it is the one
    with [hasDbConfig], the nullable [dbPool] and the file fallback).

    The handlers are written in a small state-and-exception monad that
    follows the JavaScript control flow ([try]/[catch]/[finally], early
    [return]).  What the outside world answers during one run (the
    provider's two HTTP replies, whether the database accepts a
    connection or a statement, whether the file write goes through, the
    clock) is an explicit argument of type [Ext]; [process.env] is a
    finite map from variable names to strings.  Requests are served one
    at a time, once [initDatabase] has settled.  Console output is not
    modelled. *)

From Stdlib Require Import ZArith NArith Ascii String List Lia.
From stdpp Require Import base option list strings gmap.

Local Open Scope string_scope.
Local Set Warnings "-register-all".

(** ** JavaScript strings and truthiness *)

Module Js.

(** The double-quote character, code 34. *)
Definition dq_char : ascii := "034"%char.
Definition dq : string := String dq_char EmptyString.

(** The line feed, code 10. *)
Definition lf_char : ascii := "010"%char.
Definition lf : string := String lf_char EmptyString.

(** A value read from [req.query] or [process.env], or a property of a
    provider reply: [None] is [undefined]. *)
Definition truthy (v : option string) : bool :=
  match v with
  | None => false
  | Some s => negb (String.eqb s "")
  end.

(** [v || d] for a string default [d]. *)
Definition or_str (v : option string) (d : string) : string :=
  match v with
  | Some s => if truthy v then s else d
  | None => d
  end.

(** [v || null]. *)
Definition or_null (v : option string) : option string :=
  if truthy v then v else None.

(** [`${v}`] : template interpolation of a possibly undefined string. *)
Definition to_String (v : option string) : string :=
  match v with
  | Some s => s
  | None => "undefined"
  end.

End Js.

(** ** JSON values and [JSON.stringify] *)

Module Json.
Import Js.

(** A number is carried by the text [Number.prototype.toString] gives
    it (['-12'], ['0.5'], ['1e+21']), which is what [JSON.stringify]
    writes for it; both zeros are ['0']. *)
Inductive json : Type :=
| JNull
| JBool (b : bool)
| JNum (text : string)
| JStr (s : string)
| JArr (items : list json)
| JObj (members : list (string * json)).

(** JavaScript truthiness of a JSON value. *)
Definition truthy (j : json) : bool :=
  match j with
  | JNull => false
  | JBool b => b
  | JNum text => negb (String.eqb text "0")
  | JStr s => negb (String.eqb s "")
  | JArr _ | JObj _ => true
  end.

Fixpoint assoc (k : string) (l : list (string * json)) : option json :=
  match l with
  | [] => None
  | (k', v) :: l' => if String.eqb k k' then Some v else assoc k l'
  end.

(** [j.k] for a value that is neither [null] nor [undefined]: own
    properties of an object; [undefined] on a primitive or an array. *)
Definition prop (j : json) (k : string) : option json :=
  match j with
  | JObj l => assoc k l
  | _ => None
  end.

Definition hex_digit (n : N) : ascii :=
  ascii_of_N (if (n <? 10)%N then 48 + n else 87 + n).

(** QuoteJSONString, one code unit at a time. *)
Definition escape_char (c : ascii) : string :=
  let n := N_of_ascii c in
  if (n =? 8)%N then "\b"
  else if (n =? 9)%N then "\t"
  else if (n =? 10)%N then "\n"
  else if (n =? 12)%N then "\f"
  else if (n =? 13)%N then "\r"
  else if (n =? 34)%N then String "\" dq
  else if (n =? 92)%N then "\\"
  else if (n <? 32)%N then
    "\u00" +:+ String (hex_digit (n / 16)) (String (hex_digit (n mod 16)) "")
  else String c "".

Fixpoint escape (s : string) : string :=
  match s with
  | EmptyString => ""
  | String c s' => escape_char c +:+ escape s'
  end.

Definition quote (s : string) : string := dq +:+ escape s +:+ dq.

Definition member (stringify : json -> string) (kv : string * json) : string :=
  let (k, v) := kv in quote k +:+ ":" +:+ stringify v.

(** [JSON.stringify(j)] without indentation. *)
Fixpoint stringify (j : json) : string :=
  match j with
  | JNull => "null"
  | JBool b => if b then "true" else "false"
  | JNum text => text
  | JStr s => quote s
  | JArr items => "[" +:+ String.concat "," (map stringify items) +:+ "]"
  | JObj members =>
      "{" +:+ String.concat "," (map (member stringify) members) +:+ "}"
  end.

(** An object literal whose property values may be [undefined];
    [JSON.stringify] leaves such properties out. *)
Fixpoint defined (props : list (string * option json)) : list (string * json) :=
  match props with
  | [] => []
  | (k, Some v) :: props' => (k, v) :: defined props'
  | (_, None) :: props' => defined props'
  end.

Definition of_string (v : option string) : json :=
  match v with
  | Some s => JStr s
  | None => JNull
  end.

(** An object whose values are strings or [null]. *)
Definition flat (fields : list (string * option string)) : list (string * json) :=
  map (fun kv => (kv.1, of_string kv.2)) fields.

(** The text after the first member of an object: the other members,
    each after a comma, and the closing brace. *)
Definition rest_text (texts : list string) : string :=
  fold_right (fun m acc => "," +:+ m +:+ acc) "}" texts.

(** Whether the character [c] occurs in [s]. *)
Fixpoint occurs (c : ascii) (s : string) : bool :=
  match s with
  | EmptyString => false
  | String c' s' => Ascii.eqb c c' || occurs c s'
  end.

(** *** A reader for the lines of the fallback file

    A recogniser for the JSON texts that are one object whose values
    are strings or [null], written without white space. *)

Definition unhex (c : ascii) : option N :=
  let n := N_of_ascii c in
  if ((48 <=? n) && (n <=? 57))%N then Some (n - 48)%N
  else if ((97 <=? n) && (n <=? 102))%N then Some (n - 87)%N
  else if ((65 <=? n) && (n <=? 70))%N then Some (n - 55)%N
  else None.

Definition unescape (c : ascii) : option ascii :=
  let n := N_of_ascii c in
  if (n =? 98)%N then Some "008"%char
  else if (n =? 116)%N then Some "009"%char
  else if (n =? 110)%N then Some "010"%char
  else if (n =? 102)%N then Some "012"%char
  else if (n =? 114)%N then Some "013"%char
  else if (n =? 34)%N then Some dq_char
  else if (n =? 92)%N then Some "\"%char
  else if (n =? 47)%N then Some "/"%char
  else None.

Definition push (c : ascii) (r : option (string * string)) : option (string * string) :=
  match r with
  | Some (s, rest) => Some (String c s, rest)
  | None => None
  end.

(** Reads the characters of a string literal after its opening quote,
    up to and including the closing quote. *)
Fixpoint read_chars (s : string) : option (string * string) :=
  match s with
  | EmptyString => None
  | String c rest =>
      let n := N_of_ascii c in
      if (n =? 34)%N then Some ("", rest)
      else if (n =? 92)%N then
        match rest with
        | String e rest1 =>
            if (N_of_ascii e =? 117)%N then
              match rest1 with
              | String h1 (String h2 (String h3 (String h4 rest2))) =>
                  match unhex h1, unhex h2, unhex h3, unhex h4 with
                  | Some 0%N, Some 0%N, Some a, Some b =>
                      push (ascii_of_N (16 * a + b)) (read_chars rest2)
                  | _, _, _, _ => None
                  end
              | _ => None
              end
            else
              match unescape e with
              | Some c' => push c' (read_chars rest1)
              | None => None
              end
        | EmptyString => None
        end
      else if (n <? 32)%N then None
      else push c (read_chars rest)
  end.

Definition read_string (s : string) : option (string * string) :=
  match s with
  | String c rest => if (N_of_ascii c =? 34)%N then read_chars rest else None
  | EmptyString => None
  end.

(** A value: a string literal or [null]. *)
Definition read_value (s : string) : option (option string * string) :=
  match s with
  | String "n" (String "u" (String "l" (String "l" rest))) => Some (None, rest)
  | _ =>
      match read_string s with
      | Some (v, rest) => Some (Some v, rest)
      | None => None
      end
  end.

Definition read_member (s : string) : option ((string * option string) * string) :=
  match read_string s with
  | Some (k, String ":" rest) =>
      match read_value rest with
      | Some (v, rest') => Some ((k, v), rest')
      | None => None
      end
  | _ => None
  end.

(** Members after the first, each introduced by a comma, up to the
    closing brace; [fuel] bounds the number of members. *)
Fixpoint read_more (fuel : nat) (s : string) : option (list (string * option string)) :=
  match s with
  | String "}" EmptyString => Some []
  | String "," rest =>
      match fuel with
      | O => None
      | S fuel' =>
          match read_member rest with
          | Some (m, rest') =>
              match read_more fuel' rest' with
              | Some ms => Some (m :: ms)
              | None => None
              end
          | None => None
          end
      end
  | _ => None
  end.

Definition read_object (s : string) : option (list (string * option string)) :=
  match s with
  | String "{" (String "}" EmptyString) => Some []
  | String "{" rest =>
      match read_member rest with
      | Some (m, rest') =>
          match read_more (String.length rest') rest' with
          | Some ms => Some (m :: ms)
          | None => None
          end
      | None => None
      end
  | _ => None
  end.

End Json.

(** ** The provider's replies *)

Module Discord.

(** The body of a successful reply of the token endpoint, a JSON
    object read through [data.access_token] and [data.refresh_token]:
    each is a string, or [None] when the reply omits it. *)
Record token : Type := {
  access_token : option string;
  refresh_token : option string
}.

(** The body of a successful reply of [/users/@me], read through
    [data.id]. *)
Record user : Type := {
  id : option string
}.

End Discord.

(** ** The table [Tokens] *)

Module Db.

(** One row of
    [Tokens (id, user_id NOT NULL UNIQUE, access_token NOT NULL,
    refresh_token, created_at)]. *)
Record Row : Type := {
  id : Z;
  user_id : string;
  access_token : string;
  refresh_token : option string;
  created_at : string
}.

Record t : Type := {
  Tokens : list Row;
  auto_increment : Z
}.

(** The three statements of the program, with their parameters. *)
Inductive statement : Type :=
| CreateTable
| Upsert (user_id access_token : option string) (refresh_token : string)
| SelectId (user_id : string).

Definition has_user (u : string) (r : Row) : bool := String.eqb (user_id r) u.

(** [ON DUPLICATE KEY UPDATE access_token = VALUES(access_token),
    refresh_token = VALUES(refresh_token)]; the timestamp column is
    [ON UPDATE CURRENT_TIMESTAMP], which moves only when the row
    changes. *)
Definition update (u a r now : string) (row : Row) : Row :=
  if has_user u row then
    if String.eqb (access_token row) a
       && bool_decide (refresh_token row = Some r)
    then row
    else {| id := id row; user_id := user_id row; access_token := a;
            refresh_token := Some r; created_at := now |}
  else row.

(** [INSERT ... ON DUPLICATE KEY UPDATE ...]: a [NULL] in a [NOT NULL]
    column is refused; a row with the key is updated in place;
    otherwise a row is added with the next generated [id]. *)
Definition upsert (now : string) (u a : option string) (r : string) (d : t)
  : string + t :=
  match u, a with
  | Some u, Some a =>
      if existsb (has_user u) (Tokens d) then
        inr {| Tokens := map (update u a r now) (Tokens d);
               auto_increment := auto_increment d |}
      else
        inr {| Tokens := Tokens d ++
                 [ {| id := auto_increment d; user_id := u; access_token := a;
                      refresh_token := Some r; created_at := now |} ];
               auto_increment := auto_increment d + 1 |}
  | None, _ => inl "Column 'user_id' cannot be null"
  | _, None => inl "Column 'access_token' cannot be null"
  end.

(** [SELECT id FROM Tokens WHERE user_id = ? LIMIT 1]. *)
Definition select_id (u : string) (d : t) : list Z :=
  take 1 (map id (List.filter (has_user u) (Tokens d))).

(** The result set (empty for the statements that return none) and the
    database after the statement. *)
Definition exec (now : string) (q : statement) (d : t) : string + (list Z * t) :=
  match q with
  | CreateTable => inr ([], d)
  | Upsert u a r =>
      match upsert now u a r d with
      | inr d' => inr ([], d')
      | inl msg => inl msg
      end
  | SelectId u => inr (select_id u d, d)
  end.

End Db.

(** ** Errors, the outside world, the state of the process *)

(** [error.response.data], [error.message] and what [JSON.stringify]
    makes of the error object itself. *)
Record AxiosError : Type := {
  response : option Json.json;
  message : string;
  toJSON : Json.json
}.

Inductive exn : Type :=
| EAxios (e : AxiosError)
| ETypeError (msg : string)
| ESql (msg : string)
| EFs (msg : string)
| EHeadersSent.

(** What the world outside the process does during one run. *)
Record Ext : Type := {
  token_reply : list (string * string) -> AxiosError + Discord.token;
  user_reply : string -> AxiosError + Discord.user;
  conn_ok : bool;
  query_ok : bool;
  release_ok : bool;
  end_ok : bool;
  append_ok : bool;
  now : string;
  db_now : string
}.

(** The options given to [mariadb.createPool]; [port] is the string
    handed to [parseInt]. *)
Record Pool : Type := {
  host : option string;
  user : option string;
  password : option string;
  database : option string;
  port : string;
  connectionLimit : Z;
  acquireTimeout : Z;
  connectTimeout : Z
}.

Inductive Conn : Type := Connection.

Inductive Event : Type :=
| AxiosPost (url : string) (params : list (string * string))
| AxiosGet (url : string) (authorization : string)
| CreatePool (cfg : Pool)
| GetConnection
| Query (q : Db.statement)
| Release
| PoolEnd
| AppendFile (path data : string).

Inductive Body : Type :=
| Text (s : string)
| JsonBody (j : Json.json).

Record Response : Type := {
  status : Z;
  body : Body
}.

(** The [res] object of Express: the status code set so far and the
    response once it is sent. *)
Record Res : Type := {
  statusCode : Z;
  sent : option Response
}.

(** [req.query], for parameters given at most once: a parameter of the
    URL is a string, possibly empty; one that is not there is
    [undefined]. *)
Record Request : Type := {
  query : gmap string string
}.

(** [dbPool] is the module-level variable; [db] the database behind it;
    [tokens_log] the contents of the file [tokens.log], [None] while it
    does not exist; [trace] the calls made so far, oldest first; [conn]
    and [res] belong to the handler that is running. *)
Record State : Type := {
  dbPool : option Pool;
  db : Db.t;
  tokens_log : option string;
  trace : list Event;
  conn : option Conn;
  res : Res
}.

Definition set_dbPool (p : option Pool) (s : State) : State :=
  {| dbPool := p; db := db s; tokens_log := tokens_log s; trace := trace s;
     conn := conn s; res := res s |}.

Definition set_db (d : Db.t) (s : State) : State :=
  {| dbPool := dbPool s; db := d; tokens_log := tokens_log s; trace := trace s;
     conn := conn s; res := res s |}.

Definition set_tokens_log (f : option string) (s : State) : State :=
  {| dbPool := dbPool s; db := db s; tokens_log := f; trace := trace s;
     conn := conn s; res := res s |}.

Definition add_event (e : Event) (s : State) : State :=
  {| dbPool := dbPool s; db := db s; tokens_log := tokens_log s;
     trace := trace s ++ [e]; conn := conn s; res := res s |}.

Definition set_conn (c : option Conn) (s : State) : State :=
  {| dbPool := dbPool s; db := db s; tokens_log := tokens_log s; trace := trace s;
     conn := c; res := res s |}.

Definition set_res (r : Res) (s : State) : State :=
  {| dbPool := dbPool s; db := db s; tokens_log := tokens_log s; trace := trace s;
     conn := conn s; res := r |}.

(** ** The monad of the handlers *)

Inductive Result (A : Type) : Type :=
| Ok (a : A)
| Throw (e : exn).
Arguments Ok {A} a.
Arguments Throw {A} e.

Definition M (A : Type) : Type := State -> Result A * State.

Definition ret {A} (a : A) : M A := fun s => (Ok a, s).

Definition throw {A} (e : exn) : M A := fun s => (Throw e, s).

Definition bind {A B} (m : M A) (k : A -> M B) : M B :=
  fun s =>
    match m s with
    | (Ok a, s') => k a s'
    | (Throw e, s') => (Throw e, s')
    end.

Definition gets {A} (f : State -> A) : M A := fun s => (Ok (f s), s).

Definition modify (f : State -> State) : M unit := fun s => (Ok tt, f s).

(** [try { body } catch (e) { handler e }]. *)
Definition try_catch {A} (body : M A) (handler : exn -> M A) : M A :=
  fun s =>
    match body s with
    | (Ok a, s') => (Ok a, s')
    | (Throw e, s') => handler e s'
    end.

(** [try { body } finally { final }]: [final] runs in both cases and an
    error it throws replaces the outcome of [body]. *)
Definition try_finally {A} (body : M A) (final : M unit) : M A :=
  fun s =>
    match body s with
    | (r, s') =>
        match final s' with
        | (Ok _, s'') => (r, s'')
        | (Throw e, s'') => (Throw e, s'')
        end
    end.

Declare Scope js_scope.
Delimit Scope js_scope with js.
Notation "'let!' x ':=' m 'in' k" := (bind m (fun x => k))
  (at level 10, x name, m at level 100, k at level 200) : js_scope.
Notation "m ;; k" := (bind m (fun _ => k))
  (at level 100, k at level 200, right associativity) : js_scope.
Local Open Scope js_scope.

(** ** The program *)

Section Server.

(** [process.env] and the behaviour of the outside world during the
    run. *)
Context (env : gmap string string) (x : Ext).

Definition emit (e : Event) : M unit := modify (add_event e).

(** *** Express responses *)

(** [res.status(code)]. *)
Definition res_status (code : Z) : M unit :=
  modify (fun s => set_res {| statusCode := code; sent := sent (res s) |} s).

Definition res_end (b : Body) : M unit :=
  fun s =>
    match sent (res s) with
    | Some _ => (Throw EHeadersSent, s)
    | None =>
        (Ok tt,
         set_res {| statusCode := statusCode (res s);
                    sent := Some {| status := statusCode (res s); body := b |} |} s)
    end.

(** [res.send(text)]. *)
Definition res_send (text : string) : M unit := res_end (Text text).

(** [res.json(value)]. *)
Definition res_json (value : Json.json) : M unit := res_end (JsonBody value).

(** *** Outbound calls *)

(** [axios.post(url, params, ...)]. *)
Definition axios_post (url : string) (params : list (string * string))
  : M Discord.token :=
  emit (AxiosPost url params) ;;
  match token_reply x params with
  | inr data => ret data
  | inl e => throw (EAxios e)
  end.

(** [axios.get(url, { headers: { Authorization } })]. *)
Definition axios_get (url authorization : string) : M Discord.user :=
  emit (AxiosGet url authorization) ;;
  match user_reply x authorization with
  | inr data => ret data
  | inl e => throw (EAxios e)
  end.

(** *** The database driver *)

(** [dbPool.getConnection()]; on [null] the property access throws. *)
Definition getConnection : M Conn :=
  let! pool := gets dbPool in
  match pool with
  | None => throw (ETypeError "Cannot read properties of null (reading 'getConnection')")
  | Some _ =>
      emit GetConnection ;;
      if conn_ok x then ret Connection else throw (ESql "getConnection")
  end.

(** [conn.query(sql, params)]. *)
Definition conn_query (q : Db.statement) : M (list Z) :=
  emit (Query q) ;;
  if query_ok x then
    let! d := gets db in
    match Db.exec (db_now x) q d with
    | inr (rows, d') => modify (set_db d') ;; ret rows
    | inl msg => throw (ESql msg)
    end
  else throw (ESql "query").

(** [conn.release()]. *)
Definition conn_release : M unit :=
  emit Release ;;
  if release_ok x then ret tt else throw (ESql "release").

(** [dbPool.end()]. *)
Definition pool_end : M unit :=
  emit PoolEnd ;;
  if end_ok x then ret tt else throw (ESql "end").

(** [fs.appendFileSync(path, data)]: creates the file when it does not
    exist. *)
Definition appendFileSync (path data : string) : M unit :=
  emit (AppendFile path data) ;;
  if append_ok x then
    modify (fun s => set_tokens_log (Some (default "" (tokens_log s) +:+ data)) s)
  else throw (EFs "appendFileSync").

(** *** Module level: [hasDbConfig] and [dbPool] (lines 152-173) *)

Definition hasDbConfig : bool :=
  Js.truthy (env !! "MYSQLHOST")
  && Js.truthy (env !! "MYSQLUSER")
  && Js.truthy (env !! "MYSQLPASSWORD")
  && Js.truthy (env !! "MYSQLDATABASE").

Definition createPool : M unit :=
  modify (set_dbPool None) ;;
  if hasDbConfig then
    let pool :=
      {| host := env !! "MYSQLHOST";
         user := env !! "MYSQLUSER";
         password := env !! "MYSQLPASSWORD";
         database := env !! "MYSQLDATABASE";
         port := Js.or_str (env !! "MYSQLPORT") "3306";
         connectionLimit := 3;
         acquireTimeout := 10000;
         connectTimeout := 10000 |} in
    emit (CreatePool pool) ;;
    modify (set_dbPool (Some pool))
  else ret tt.

(** [if (conn) try { conn.release(); } catch (e) { }]. *)
Definition release_quietly : M unit :=
  let! c := gets conn in
  match c with
  | Some _ => try_catch conn_release (fun _ => ret tt)
  | None => ret tt
  end.

(** *** [initDatabase] (lines 176-206) *)

Definition initDatabase : M unit :=
  let! pool := gets dbPool in
  match pool with
  | None => ret tt
  | Some _ =>
      modify (set_conn None) ;;
      try_finally
        (try_catch
           (let! c := getConnection in
            modify (set_conn (Some c)) ;;
            let! _ := conn_query Db.CreateTable in
            ret tt)
           (fun err =>
              try_catch
                (let! pool' := gets dbPool in
                 match pool' with
                 | Some _ => pool_end
                 | None => ret tt
                 end)
                (fun endErr => ret tt) ;;
              modify (set_dbPool None)))
        release_quietly
  end.

(** The start of the process: the module-level code, then
    [initDatabase()]. *)
Definition startup : M unit := createPool ;; initDatabase.

(** *** [GET /callback] (lines 212-307) *)

Definition html : string :=
  Js.lf +:+
  "      <html>" +:+ Js.lf +:+
  "        <body style=" +:+ Js.dq +:+
  "font-family: sans-serif; text-align: center; padding: 60px; background: #2f3136; color: white;"
  +:+ Js.dq +:+ ">" +:+ Js.lf +:+
  "          <h2>✅ Autorizado!</h2>" +:+ Js.lf +:+
  "          <p>Você já pode voltar pro Discord e clicar em <strong>" +:+ Js.dq +:+
  "Já autorizei, continuar" +:+ Js.dq +:+ "</strong>.</p>" +:+ Js.lf +:+
  "        </body>" +:+ Js.lf +:+
  "      </html>" +:+ Js.lf +:+
  "    ".

(** Lines 250-264, the branch [if (dbPool)]: the upsert, with every
    error caught. *)
Definition upsertToken (discordUserId accessToken refreshToken : option string)
  : M unit :=
  modify (set_conn None) ;;
  try_finally
    (try_catch
       (let! c := getConnection in
        modify (set_conn (Some c)) ;;
        let! _ := conn_query
                    (Db.Upsert discordUserId accessToken (Js.or_str refreshToken "")) in
        ret tt)
       (fun err => ret tt))
    release_quietly.

(** The object literal of lines 271-276. *)
Definition record (discordUserId accessToken refreshToken : option string)
  : list (string * option Json.json) :=
  [ ("created_at", Some (Json.JStr (now x)));
    ("user_id", Json.JStr <$> discordUserId);
    ("access_token", Json.JStr <$> accessToken);
    ("refresh_token", Some (Json.of_string (Js.or_null refreshToken))) ].

(** Lines 266-282, the branch [else]: the optional file fallback, with
    every error caught. *)
Definition appendRecord (discordUserId accessToken refreshToken : option string)
  : M unit :=
  try_catch
    (let useFile := bool_decide (env !! "FILE_FALLBACK" = Some "true") in
     if useFile then
       appendFileSync "tokens.log"
         (Json.stringify
            (Json.JObj (Json.defined (record discordUserId accessToken refreshToken)))
          +:+ Js.lf)
     else ret tt)
    (fun fileErr => ret tt).

(** Lines 249-283: [if (dbPool) { ... } else { ... }]. *)
Definition persist (discordUserId accessToken refreshToken : option string)
  : M unit :=
  let! pool := gets dbPool in
  match pool with
  | Some _ => upsertToken discordUserId accessToken refreshToken
  | None => appendRecord discordUserId accessToken refreshToken
  end.

(** [error.response?.data || error.message || error]. *)
Definition errData (error : exn) : Json.json :=
  match error with
  | EAxios e =>
      match response e with
      | Some data =>
          if Json.truthy data then data
          else if Js.truthy (Some (message e)) then Json.JStr (message e)
          else toJSON e
      | None =>
          if Js.truthy (Some (message e)) then Json.JStr (message e)
          else toJSON e
      end
  | ETypeError msg | ESql msg | EFs msg =>
      if Js.truthy (Some msg) then Json.JStr msg else Json.JObj []
  | EHeadersSent => Json.JStr "Cannot set headers after they are sent to the client"
  end.

(** [error.response && error.response.data &&
     error.response.data.error === 'invalid_grant']. *)
Definition is_invalid_grant (error : exn) : bool :=
  match error with
  | EAxios e =>
      match response e with
      | Some data =>
          Json.truthy data
          && match Json.prop data "error" with
             | Some (Json.JStr s) => String.eqb s "invalid_grant"
             | _ => false
             end
      | None => false
      end
  | _ => false
  end.

(** The form body of lines 227-232. *)
Definition URLSearchParams (code redirectUri clientId clientSecret : option string)
  : list (string * string) :=
  [ ("client_id", Js.to_String clientId);
    ("client_secret", Js.to_String clientSecret);
    ("grant_type", "authorization_code");
    ("code", Js.to_String code);
    ("redirect_uri", Js.to_String redirectUri) ].

Definition token_url : string := "https://discord.com/api/oauth2/token".
Definition users_me_url : string := "https://discord.com/api/users/@me".

Definition callback (req : Request) : M unit :=
  let code := query req !! "code" in
  if negb (Js.truthy code) then
    res_status 400 ;; res_send "Código ausente."
  else
    let redirectUri := env !! "REDIRECT_URI" in
    let clientId := env !! "CLIENT_ID" in
    let clientSecret := env !! "CLIENT_SECRET" in
    if negb (Js.truthy redirectUri) || negb (Js.truthy clientId)
       || negb (Js.truthy clientSecret)
    then
      res_status 500 ;; res_send "Variáveis de ambiente não configuradas."
    else
      try_catch
        (let params := URLSearchParams code redirectUri clientId clientSecret in
         let! tokenResponse :=
           axios_post token_url params in
         let accessToken := Discord.access_token tokenResponse in
         let refreshToken := Discord.refresh_token tokenResponse in
         let! userResponse :=
           axios_get users_me_url ("Bearer " +:+ Js.to_String accessToken) in
         let discordUserId := Discord.id userResponse in
         persist discordUserId accessToken refreshToken ;;
         res_send html)
        (fun error =>
           let debug := bool_decide (env !! "DEBUG" = Some "true") in
           if debug then
             res_status 500 ;;
             res_send ("Erro ao autorizar: " +:+ Json.stringify (errData error))
           else if is_invalid_grant error then
             res_status 400 ;;
             res_send
               "Código inválido ou expirado. Reinicie o fluxo de autorização e tente novamente."
           else
             res_status 500 ;; res_send "Erro ao autorizar. Tente novamente.")
  .

(** *** [GET /] (line 309) *)

Definition root (req : Request) : M unit := res_send "Bot callback online!".

(** *** [GET /check] (lines 312-326) *)

Definition hasToken (b : bool) : Json.json := Json.JObj [("hasToken", Json.JBool b)].

Definition check (req : Request) : M unit :=
  let userId := query req !! "user_id" in
  if negb (Js.truthy userId) then res_json (hasToken false)
  else
    modify (set_conn None) ;;
    try_finally
      (try_catch
         (let! c := getConnection in
          modify (set_conn (Some c)) ;;
          let! rows := conn_query (Db.SelectId (Js.to_String userId)) in
          res_json (hasToken (0 <? Z.of_nat (length rows))%Z))
         (fun _ => res_json (hasToken false)))
      (let! c := gets conn in
       match c with
       | Some _ => conn_release
       | None => ret tt
       end).

(** *** Serving one request *)

(** Express calls the handler with a fresh [res]. *)
Definition fresh (s : State) : State :=
  set_res {| statusCode := 200; sent := None |} s.

Definition serve (handler : Request -> M unit) (req : Request) (s : State) : State :=
  snd (handler req (fresh s)).

(** The response the client receives, if any. *)
Definition reply (handler : Request -> M unit) (req : Request) (s : State)
  : option Response :=
  sent (res (serve handler req s)).

End Server.

(** ** Vocabulary of the properties *)

(** The request carries a [code]: [req.query.code] is truthy. *)
Definition has_code (req : Request) : bool := Js.truthy (query req !! "code").

(** [REDIRECT_URI], [CLIENT_ID] and [CLIENT_SECRET] are all set. *)
Definition configured (env : gmap string string) : bool :=
  Js.truthy (env !! "REDIRECT_URI")
  && Js.truthy (env !! "CLIENT_ID")
  && Js.truthy (env !! "CLIENT_SECRET").

(** The provider's answer to the token exchange of this request. *)
Definition exchange (env : gmap string string) (x : Ext) (req : Request)
  : AxiosError + Discord.token :=
  token_reply x
    (URLSearchParams (query req !! "code") (env !! "REDIRECT_URI")
       (env !! "CLIENT_ID") (env !! "CLIENT_SECRET")).

(** The provider's answer to the profile fetch made with [tok]. *)
Definition profile (x : Ext) (tok : Discord.token) : AxiosError + Discord.user :=
  user_reply x ("Bearer " +:+ Js.to_String (Discord.access_token tok)).

(** The exchange or the profile fetch of this request fails with [e]. *)
Definition fails_with (env : gmap string string) (x : Ext) (req : Request)
    (e : AxiosError) : Prop :=
  exchange env x req = inl e
  \/ exists tok, exchange env x req = inr tok /\ profile x tok = inl e.

(** The state once the token exchange is issued, and once the
    profile fetch is issued too. *)
Definition posted (env : gmap string string) (req : Request) (s : State) : State :=
  add_event
    (AxiosPost token_url
       (URLSearchParams (query req !! "code") (env !! "REDIRECT_URI")
          (env !! "CLIENT_ID") (env !! "CLIENT_SECRET")))
    (fresh s).

Definition fetched (env : gmap string string) (req : Request)
    (tok : Discord.token) (s : State) : State :=
  add_event
    (AxiosGet users_me_url ("Bearer " +:+ Js.to_String (Discord.access_token tok)))
    (posted env req s).

Definition text (code : Z) (s : string) : Response :=
  {| status := code; body := Text s |}.

(** What the [catch] of [/callback] sends for a provider error. *)
Definition failure_response (env : gmap string string) (e : AxiosError) : Response :=
  if bool_decide (env !! "DEBUG" = Some "true") then
    text 500 ("Erro ao autorizar: " +:+ Json.stringify (errData (EAxios e)))
  else if is_invalid_grant (EAxios e) then
    text 400
      "Código inválido ou expirado. Reinicie o fluxo de autorização e tente novamente."
  else text 500 "Erro ao autorizar. Tente novamente.".

(** The state once the response [r] is sent. *)
Definition answered (r : Response) (s : State) : State :=
  set_res {| statusCode := status r; sent := Some r |} s.

(** The calls to the provider. *)
Definition outbound (e : Event) : bool :=
  match e with
  | AxiosPost _ _ | AxiosGet _ _ => true
  | _ => false
  end.

Definition is_pool_end (e : Event) : bool :=
  match e with
  | PoolEnd => true
  | _ => false
  end.

(** The events a run from [s] to [s'] added to the trace. *)
Definition new_events (s s' : State) : list Event :=
  drop (length (trace s)) (trace s').

(** The confirmation page. *)
Definition page : Response := {| status := 200; body := Text html |}.

Definition has_token (b : bool) : Response :=
  {| status := 200; body := JsonBody (hasToken b) |}.

(** Persistence is enabled, and the database accepts the connection
    and executes the statement. *)
Definition storage_ok (x : Ext) (s : State) : bool :=
  bool_decide (is_Some (dbPool s)) && conn_ok x && query_ok x.

(** The rows of a user. *)
Definition rows_of (u : string) (d : Db.t) : list Db.Row :=
  List.filter (Db.has_user u) (Db.Tokens d).

(** At most one row for each [user_id]. *)
Definition unique_user_ids (d : Db.t) : Prop :=
  NoDup (map Db.user_id (Db.Tokens d)).

(** The members of the line written for a token record, as the reader
    of the fallback file returns them. *)
Definition fallback_fields (now : string) (u a r : option string)
  : list (string * option string) :=
  [("created_at", Some now)]
  ++ match u with Some u => [("user_id", Some u)] | None => [] end
  ++ match a with Some a => [("access_token", Some a)] | None => [] end
  ++ [("refresh_token", Js.or_null r)].

(** The database fields that must be set for the pool to be created. *)
Definition required_db_fields : list string :=
  ["MYSQLHOST"; "MYSQLUSER"; "MYSQLPASSWORD"; "MYSQLDATABASE"].

(** One request served by the process. *)
Inductive step (env : gmap string string) : State -> State -> Prop :=
| step_callback x req s : step env s (serve (callback env x) req s)
| step_root req s : step env s (serve root req s)
| step_check x req s : step env s (serve (check x) req s).

(** ** Sample runs *)

Module Sample.

Definition env_min : gmap string string :=
  <["REDIRECT_URI" := "https://bot.example/callback"]>
    (<["CLIENT_ID" := "1234"]> (<["CLIENT_SECRET" := "s3cr3t"]> ∅)).

Definition env_db : gmap string string :=
  <["MYSQLHOST" := "db.internal"]>
    (<["MYSQLUSER" := "bot"]>
       (<["MYSQLPASSWORD" := "pw"]> (<["MYSQLDATABASE" := "railway"]> env_min))).

Definition env_no_password : gmap string string :=
  <["MYSQLHOST" := "db.internal"]>
    (<["MYSQLUSER" := "bot"]> (<["MYSQLDATABASE" := "railway"]> env_min)).

Definition env_fallback : gmap string string :=
  <["FILE_FALLBACK" := "true"]> env_min.

Definition env_debug : gmap string string :=
  <["DEBUG" := "true"]> env_min.

Definition tokens_T1_R1 : Discord.token :=
  {| Discord.access_token := Some "T1"; Discord.refresh_token := Some "R1" |}.

Definition tokens_T1 : Discord.token :=
  {| Discord.access_token := Some "T1"; Discord.refresh_token := None |}.

Definition user_U1 : Discord.user := {| Discord.id := Some "U1" |}.

(** The provider's reply to a code that was already used. *)
Definition invalid_grant : AxiosError :=
  {| response :=
       Some (Json.JObj [("error", Json.JStr "invalid_grant");
                        ("error_description", Json.JStr "Invalid code")]);
     message := "Request failed with status code 400";
     toJSON := Json.JObj [("message", Json.JStr "Request failed with status code 400")] |}.

(** A world where everything works. *)
Definition x_ok : Ext :=
  {| token_reply := fun _ => inr tokens_T1_R1;
     user_reply := fun _ => inr user_U1;
     conn_ok := true; query_ok := true; release_ok := true; end_ok := true;
     append_ok := true;
     now := "2024-05-01T12:00:00.000Z";
     db_now := "2024-05-01 12:00:00" |}.

(** The provider sends no refresh token. *)
Definition x_no_refresh : Ext :=
  {| token_reply := fun _ => inr tokens_T1;
     user_reply := fun _ => inr user_U1;
     conn_ok := true; query_ok := true; release_ok := true; end_ok := true;
     append_ok := true;
     now := "2024-05-01T12:00:00.000Z";
     db_now := "2024-05-01 12:00:00" |}.

(** The provider refuses the code. *)
Definition x_invalid_grant : Ext :=
  {| token_reply := fun _ => inl invalid_grant;
     user_reply := fun _ => inr user_U1;
     conn_ok := true; query_ok := true; release_ok := true; end_ok := true;
     append_ok := true;
     now := "2024-05-01T12:00:00.000Z";
     db_now := "2024-05-01 12:00:00" |}.

(** The database refuses every statement. *)
Definition x_query_fails : Ext :=
  {| token_reply := fun _ => inr tokens_T1_R1;
     user_reply := fun _ => inr user_U1;
     conn_ok := true; query_ok := false; release_ok := true; end_ok := true;
     append_ok := true;
     now := "2024-05-01T12:00:00.000Z";
     db_now := "2024-05-01 12:00:00" |}.

(** The process before its module-level code has run. *)
Definition s_init : State :=
  {| dbPool := None;
     db := {| Db.Tokens := []; Db.auto_increment := 1 |};
     tokens_log := None;
     trace := [];
     conn := None;
     res := {| statusCode := 200; sent := None |} |}.

(** The process once the pool is up. *)
Definition s_enabled : State := snd (startup env_db x_ok s_init).

(** The same with a row for user [U1]. *)
Definition s_U1 : State :=
  set_db
    {| Db.Tokens :=
         [ {| Db.id := 1; Db.user_id := "U1"; Db.access_token := "T0";
              Db.refresh_token := Some "R0";
              Db.created_at := "2024-04-01 08:00:00" |} ];
       Db.auto_increment := 2 |}
    s_enabled.

Definition req_empty : Request := {| query := ∅ |}.

Definition req_code : Request := {| query := <["code" := "ABC"]> ∅ |}.

Definition req_user (u : string) : Request := {| query := <["user_id" := u]> ∅ |}.

End Sample.

(** ** The earlier revision of the file (lines 1-135)

    The first text of [index.js]: the pool is a constant created
    unconditionally, so it is not part of the state; the upsert of
    [/callback] has a [finally] but no [catch] of its own; there is
    neither a debug mode, nor a special case for [invalid_grant], nor a
    file fallback.  Only its [/callback] is modelled here. *)

Module Rev1.

Section Server.
Context (env : gmap string string) (x : Ext).

(** [dbPool.getConnection()] on the constant pool. *)
Definition getConnection : M Conn :=
  emit GetConnection ;;
  if conn_ok x then ret Connection else throw (ESql "getConnection").

(** [if (conn) conn.release();] *)
Definition release : M unit :=
  let! c := gets conn in
  match c with
  | Some _ => conn_release x
  | None => ret tt
  end.

(** Lines 88-100: the upsert, in a [try] with a [finally] only. *)
Definition saveToken (discordUserId accessToken refreshToken : option string)
  : M unit :=
  modify (set_conn None) ;;
  try_finally
    (let! c := getConnection in
     modify (set_conn (Some c)) ;;
     let! _ := conn_query x
                 (Db.Upsert discordUserId accessToken (Js.or_str refreshToken "")) in
     ret tt)
    release.

(** [GET /callback] (lines 51-114). *)
Definition callback (req : Request) : M unit :=
  let code := query req !! "code" in
  if negb (Js.truthy code) then
    res_status 400 ;; res_send "Código ausente."
  else
    let redirectUri := env !! "REDIRECT_URI" in
    let clientId := env !! "CLIENT_ID" in
    let clientSecret := env !! "CLIENT_SECRET" in
    if negb (Js.truthy redirectUri) || negb (Js.truthy clientId)
       || negb (Js.truthy clientSecret)
    then
      res_status 500 ;; res_send "Variáveis de ambiente não configuradas."
    else
      try_catch
        (let params := URLSearchParams code redirectUri clientId clientSecret in
         let! tokenResponse := axios_post x token_url params in
         let accessToken := Discord.access_token tokenResponse in
         let refreshToken := Discord.refresh_token tokenResponse in
         let! userResponse :=
           axios_get x users_me_url ("Bearer " +:+ Js.to_String accessToken) in
         let discordUserId := Discord.id userResponse in
         saveToken discordUserId accessToken refreshToken ;;
         res_send html)
        (fun error =>
           res_status 500 ;; res_send "Erro ao autorizar. Tente novamente.").

End Server.

End Rev1.

(** ** More vocabulary *)

Definition is_get_connection (e : Event) : bool :=
  match e with
  | GetConnection => true
  | _ => false
  end.

Definition is_release (e : Event) : bool :=
  match e with
  | Release => true
  | _ => false
  end.

(** The calls to the database driver. *)
Definition is_database (e : Event) : bool :=
  match e with
  | CreatePool _ | GetConnection | Query _ | Release | PoolEnd => true
  | _ => false
  end.

Definition is_append (e : Event) : bool :=
  match e with
  | AppendFile _ _ => true
  | _ => false
  end.

(** At most one connection is asked for, and it is released once when
    it was obtained. *)
Definition released_once (x : Ext) (evs : list Event) : Prop :=
  length (List.filter is_get_connection evs) <= 1
  /\ length (List.filter is_release evs)
     = if conn_ok x then length (List.filter is_get_connection evs) else 0.

Definition generic_failure : Response :=
  text 500 "Erro ao autorizar. Tente novamente.".

Definition restart_flow : Response :=
  text 400
    "Código inválido ou expirado. Reinicie o fluxo de autorização e tente novamente.".

(** The five responses of [/callback] outside the debug mode. *)
Definition fixed_replies : list Response :=
  [ page;
    text 400 "Código ausente.";
    text 500 "Variáveis de ambiente não configuradas.";
    restart_flow;
    generic_failure ].

(** The events [/callback] adds after the two provider calls. *)
Definition persist_events (env : gmap string string) (x : Ext)
    (u a r : option string) (s : State) : list Event :=
  match dbPool s with
  | Some _ =>
      GetConnection
      :: (if conn_ok x
          then [Query (Db.Upsert u a (Js.or_str r "")); Release]
          else [])
  | None =>
      if bool_decide (env !! "FILE_FALLBACK" = Some "true") then
        [AppendFile "tokens.log"
           (Json.stringify (Json.JObj (Json.defined (record x u a r))) +:+ Js.lf)]
      else []
  end.

(** The pool the module-level code creates. *)
Definition pool_of (env : gmap string string) : Pool :=
  {| host := env !! "MYSQLHOST";
     user := env !! "MYSQLUSER";
     password := env !! "MYSQLPASSWORD";
     database := env !! "MYSQLDATABASE";
     port := Js.or_str (env !! "MYSQLPORT") "3306";
     connectionLimit := 3;
     acquireTimeout := 10000;
     connectTimeout := 10000 |}.

(** The events a request to [/callback] adds. *)
Definition callback_events (env : gmap string string) (x : Ext)
    (req : Request) (s : State) : list Event :=
  if negb (has_code req) then []
  else if negb (configured env) then []
  else
    AxiosPost token_url
      (URLSearchParams (query req !! "code") (env !! "REDIRECT_URI")
         (env !! "CLIENT_ID") (env !! "CLIENT_SECRET"))
    :: match exchange env x req with
       | inl _ => []
       | inr tok =>
           AxiosGet users_me_url
             ("Bearer " +:+ Js.to_String (Discord.access_token tok))
           :: match profile x tok with
              | inl _ => []
              | inr usr =>
                  persist_events env x (Discord.id usr) (Discord.access_token tok)
                    (Discord.refresh_token tok) s
              end
       end.

(** The events a request to [/check] adds. *)
Definition check_events (x : Ext) (req : Request) (s : State) : list Event :=
  if Js.truthy (query req !! "user_id") then
    match dbPool s with
    | Some _ =>
        GetConnection
        :: (if conn_ok x
            then [Query (Db.SelectId (Js.to_String (query req !! "user_id"))); Release]
            else [])
    | None => []
    end
  else [].

(** The events the start of the process adds. *)
Definition startup_events (env : gmap string string) (x : Ext) : list Event :=
  if hasDbConfig env then
    CreatePool (pool_of env) :: GetConnection
    :: (if conn_ok x then
          Query Db.CreateTable
          :: (if query_ok x then [Release] else [PoolEnd; Release])
        else [PoolEnd])
  else [].

(** The response [200 {"hasToken": b}], written out. *)
Definition check_body (b : bool) : Response :=
  {| status := 200;
     body := JsonBody (Json.JObj [("hasToken", Json.JBool b)]) |}.

(** The values JavaScript takes for false among the JSON values:
    [null], [false], zero and the empty string. *)
Definition falsy (j : Json.json) : bool :=
  match j with
  | Json.JNull => true
  | Json.JBool b => negb b
  | Json.JNum text => String.eqb text "0"
  | Json.JStr s => String.eqb s ""
  | Json.JArr _ | Json.JObj _ => false
  end.

(** The payload of a provider error: the body of its response when
    there is one and it is not falsy; else its message when that is not
    empty; else the error object itself. *)
Definition error_payload (e : AxiosError) : Json.json :=
  let fallback :=
    if String.eqb (message e) "" then toJSON e else Json.JStr (message e) in
  match response e with
  | Some data => if falsy data then fallback else data
  | None => fallback
  end.

(** The error carries a response whose [error] is ['invalid_grant']. *)
Definition says_invalid_grant (e : AxiosError) : Prop :=
  exists data,
    response e = Some data
    /\ Json.prop data "error" = Some (Json.JStr "invalid_grant").

(** The members of the line the fallback writes: [created_at]; then
    [user_id] and [access_token] when they are defined; then
    [refresh_token], [null] when it is undefined or empty. *)
Definition fallback_members (now : string) (u a r : option string)
  : list (string * option string) :=
  [("created_at", Some now)]
  ++ match u with Some u => [("user_id", Some u)] | None => [] end
  ++ match a with Some a => [("access_token", Some a)] | None => [] end
  ++ [("refresh_token",
       match r with
       | Some r => if String.eqb r "" then None else Some r
       | None => None
       end)].

(** The calls a request to [/callback] makes after the two provider
    calls, written out: with a pool, one connection and, when it is
    obtained, the one upsert and the release; without a pool, the one
    append when [FILE_FALLBACK] is ['true']. *)
Definition storing_calls (env : gmap string string) (x : Ext)
    (tok : Discord.token) (usr : Discord.user) (s : State) : list Event :=
  match dbPool s with
  | Some _ =>
      GetConnection
      :: (if conn_ok x then
            [ Query (Db.Upsert (Discord.id usr) (Discord.access_token tok)
                       (default "" (Discord.refresh_token tok)));
              Release ]
          else [])
  | None =>
      match env !! "FILE_FALLBACK" with
      | Some "true" =>
          [ AppendFile "tokens.log"
              (Json.stringify
                 (Json.JObj
                    (Json.flat
                       (fallback_members (now x) (Discord.id usr)
                          (Discord.access_token tok) (Discord.refresh_token tok))))
               +:+ String "010"%char "") ]
      | _ => []
      end
  end.

(** ** More sample runs *)

Module Edge.

(** The provider names the user with the empty string. *)
Definition x_empty_id : Ext :=
  {| token_reply := fun _ => inr Sample.tokens_T1_R1;
     user_reply := fun _ => inr {| Discord.id := Some "" |};
     conn_ok := true; query_ok := true; release_ok := true; end_ok := true;
     append_ok := true;
     now := "2024-05-01T12:00:00.000Z";
     db_now := "2024-05-01 12:00:00" |}.

(** The table once that user has authorized. *)
Definition s_empty_id : State :=
  serve (callback Sample.env_db x_empty_id) Sample.req_code Sample.s_enabled.

(** The profile reply carries no [id]. *)
Definition x_no_id : Ext :=
  {| token_reply := fun _ => inr Sample.tokens_T1_R1;
     user_reply := fun _ => inr {| Discord.id := None |};
     conn_ok := true; query_ok := true; release_ok := true; end_ok := true;
     append_ok := true;
     now := "2024-05-01T12:00:00.000Z";
     db_now := "2024-05-01 12:00:00" |}.

(** The provider answers the profile fetch with an error whose [error]
    is some other string. *)
Definition access_denied : AxiosError :=
  {| response := Some (Json.JObj [("error", Json.JStr "access_denied")]);
     message := "Request failed with status code 403";
     toJSON := Json.JObj [("message", Json.JStr "Request failed with status code 403")] |}.

Definition x_access_denied : Ext :=
  {| token_reply := fun _ => inr Sample.tokens_T1_R1;
     user_reply := fun _ => inl access_denied;
     conn_ok := true; query_ok := true; release_ok := true; end_ok := true;
     append_ok := true;
     now := "2024-05-01T12:00:00.000Z";
     db_now := "2024-05-01 12:00:00" |}.

End Edge.

(** * Properties *)

(** ** [JSON.stringify] and the reader *)

Module JsonFacts.
Import Js Json.
Local Arguments String.append !_ _ / : simpl nomatch.

Lemma append_assoc (a b c : string) : (a +:+ b) +:+ c = a +:+ (b +:+ c).
Proof. induction a as [|ch a IH]; simpl; [reflexivity | by rewrite IH]. Qed.

Lemma append_nil_r (a : string) : a +:+ "" = a.
Proof. induction a as [|ch a IH]; simpl; [reflexivity | by rewrite IH]. Qed.

(** Reading back one escaped character. *)
Lemma read_chars_escape_char (c : ascii) (tail : string) :
  read_chars (escape_char c +:+ tail) = push c (read_chars tail).
Proof.
  destruct c as [[] [] [] [] [] [] [] []]; reflexivity.
Qed.

Lemma read_chars_escape (s rest : string) :
  read_chars (escape s +:+ String dq_char rest) = Some (s, rest).
Proof.
  induction s as [|c s IH]; simpl.
  - reflexivity.
  - rewrite append_assoc, read_chars_escape_char, IH. reflexivity.
Qed.

Lemma read_string_quote (s rest : string) :
  read_string (quote s +:+ rest) = Some (s, rest).
Proof.
  unfold quote. rewrite !append_assoc. simpl.
  apply read_chars_escape.
Qed.

Lemma occurs_append c a b : occurs c (a +:+ b) = occurs c a || occurs c b.
Proof. induction a as [|ch a IH]; simpl; [reflexivity | by rewrite IH, orb_assoc]. Qed.

Lemma escape_char_no_lf (c : ascii) : occurs lf_char (escape_char c) = false.
Proof. destruct c as [[] [] [] [] [] [] [] []]; reflexivity. Qed.

Lemma escape_no_lf (s : string) : occurs lf_char (escape s) = false.
Proof.
  induction s as [|c s IH]; simpl; [reflexivity|].
  by rewrite occurs_append, escape_char_no_lf, IH.
Qed.

Lemma quote_no_lf (s : string) : occurs lf_char (quote s) = false.
Proof. unfold quote. rewrite !occurs_append, escape_no_lf. reflexivity. Qed.


Lemma concat_rest_text (m : string) (ms : list string) :
  String.concat "," (m :: ms) +:+ "}" = m +:+ rest_text ms.
Proof.
  revert m. induction ms as [|m' ms IH]; intros m.
  - reflexivity.
  - change (String.concat "," (m :: m' :: ms))
      with (m +:+ "," +:+ String.concat "," (m' :: ms)).
    rewrite !append_assoc, IH. reflexivity.
Qed.

Lemma read_value_of_string (v : option string) (rest : string) :
  read_value (stringify (of_string v) +:+ rest) = Some (v, rest).
Proof.
  destruct v as [s|]; simpl; [|reflexivity].
  pose proof (read_string_quote s rest) as H.
  unfold quote in *. rewrite !append_assoc in *. simpl in *.
  rewrite H. reflexivity.
Qed.

Lemma read_member_text (kv : string * option string) (rest : string) :
  read_member (member stringify (kv.1, of_string kv.2) +:+ rest) = Some (kv, rest).
Proof.
  destruct kv as [k v]. unfold read_member, member. cbn [fst snd].
  rewrite !append_assoc, read_string_quote. simpl.
  rewrite read_value_of_string. reflexivity.
Qed.

Lemma read_more_rest (fields : list (string * option string)) (fuel : nat) :
  length fields <= fuel ->
  read_more fuel (rest_text (map (member stringify) (flat fields))) = Some fields.
Proof.
  revert fuel. induction fields as [|kv fields IH]; intros fuel Hfuel.
  - destruct fuel; reflexivity.
  - destruct fuel as [|fuel]; [simpl in Hfuel; lia|].
    change (rest_text (map (member stringify) (flat (kv :: fields))))
      with (String "," (member stringify (kv.1, of_string kv.2)
                        +:+ rest_text (map (member stringify) (flat fields)))).
    cbn [read_more].
    rewrite read_member_text, IH by (simpl in Hfuel; lia).
    reflexivity.
Qed.

Lemma length_append (a b : string) :
  String.length (a +:+ b) = String.length a + String.length b.
Proof. induction a as [|c a IH]; simpl; [reflexivity | by rewrite IH]. Qed.

Lemma rest_text_length (texts : list string) :
  length texts <= String.length (rest_text texts).
Proof.
  induction texts as [|m texts IH]; simpl; [lia|].
  rewrite length_append. lia.
Qed.

(** Reading back what [JSON.stringify] writes for an object whose
    values are strings or [null]. *)
Lemma read_object_stringify (fields : list (string * option string)) :
  read_object (stringify (JObj (flat fields))) = Some fields.
Proof.
  destruct fields as [|kv fields]; [reflexivity|].
  cbn [stringify flat map].
  rewrite concat_rest_text.
  destruct kv as [k v]. cbn [fst snd member].
  unfold quote at 1. rewrite !append_assoc. cbn [String.append dq read_object].
  pose proof (read_member_text (k, v) (rest_text (map (member stringify) (flat fields)))) as H.
  cbn [fst snd member] in H. unfold quote at 1 in H. rewrite !append_assoc in H.
  cbn [String.append dq] in H. unfold flat in H. rewrite H.
  fold (flat fields).
  rewrite read_more_rest.
  - reflexivity.
  - etransitivity; [|apply rest_text_length]. unfold flat. by rewrite !length_map.
Qed.

Lemma rest_text_no_lf (texts : list string) :
  Forall (fun m => occurs lf_char m = false) texts ->
  occurs lf_char (rest_text texts) = false.
Proof.
  induction 1 as [|m texts Hm _ IH]; simpl; [reflexivity|].
  by rewrite occurs_append, Hm, IH.
Qed.

Lemma member_no_lf (kv : string * option string) :
  occurs lf_char (member stringify (kv.1, of_string kv.2)) = false.
Proof.
  destruct kv as [k v]. unfold member. cbn [fst snd].
  rewrite !occurs_append, quote_no_lf.
  destruct v as [s|]; simpl; [apply quote_no_lf | reflexivity].
Qed.

(** Such an object is written on one line. *)
Lemma stringify_flat_no_lf (fields : list (string * option string)) :
  occurs lf_char (stringify (JObj (flat fields))) = false.
Proof.
  destruct fields as [|kv fields]; [reflexivity|].
  cbn [stringify flat map]. rewrite concat_rest_text.
  cbn [String.append occurs]. rewrite occurs_append, member_no_lf.
  apply rest_text_no_lf.
  fold (flat fields). clear kv.
  induction fields as [|kv fields IH]; constructor; [apply member_no_lf | exact IH].
Qed.

End JsonFacts.

(** ** The table *)

Module DbFacts.
Import Db.

Lemma has_user_eq (u : string) (row : Row) : has_user u row = true <-> user_id row = u.
Proof. unfold has_user. apply String.eqb_eq. Qed.

Lemma update_user_id (u a r now : string) (row : Row) :
  user_id (update u a r now row) = user_id row.
Proof. unfold update. repeat case_match; reflexivity. Qed.

Lemma update_values (u a r now : string) (row : Row) :
  has_user u row = true ->
  access_token (update u a r now row) = a
  /\ refresh_token (update u a r now row) = Some r.
Proof.
  unfold update. intros ->.
  destruct (String.eqb (access_token row) a) eqn:Ha; simpl.
  - apply String.eqb_eq in Ha. case_bool_decide; simpl; auto.
  - auto.
Qed.

Lemma user_ids_update (u a r now : string) (rows : list Row) :
  map user_id (map (update u a r now) rows) = map user_id rows.
Proof.
  induction rows as [|row rows IH]; simpl; [reflexivity|].
  by rewrite update_user_id, IH.
Qed.

Lemma existsb_has_user (u : string) (rows : list Row) :
  existsb (has_user u) rows = true <-> u ∈ map user_id rows.
Proof.
  induction rows as [|row rows IH]; simpl.
  - split; [discriminate | intros H; inversion H].
  - rewrite orb_true_iff, IH, has_user_eq, elem_of_cons. intuition congruence.
Qed.

(** The statement keeps [user_id] unique. *)
Lemma upsert_unique now u a r d d' :
  NoDup (map user_id (Tokens d)) ->
  upsert now u a r d = inr d' ->
  NoDup (map user_id (Tokens d')).
Proof.
  intros Huniq. unfold upsert.
  destruct u as [u|], a as [a|]; try discriminate.
  destruct (existsb (has_user u) (Tokens d)) eqn:Hex; intros [= <-]; simpl.
  - by rewrite user_ids_update.
  - rewrite map_app. simpl. apply NoDup_app. split; [exact Huniq|]. split.
    + intros v Hv Hin. apply list_elem_of_singleton in Hin as ->.
      apply existsb_has_user in Hv. congruence.
    + apply NoDup_singleton.
Qed.

(** After the statement every row of the user carries the values given. *)
Lemma upsert_values now u a r d d' row :
  upsert now (Some u) (Some a) r d = inr d' ->
  row ∈ Tokens d' ->
  has_user u row = true ->
  access_token row = a /\ refresh_token row = Some r.
Proof.
  unfold upsert.
  destruct (existsb (has_user u) (Tokens d)) eqn:Hex; intros [= <-]; simpl.
  - intros Hin Hu. apply list_elem_of_In, in_map_iff in Hin as (row0 & <- & _).
    apply update_values. unfold has_user in *. by rewrite update_user_id in Hu.
  - intros Hin Hu. apply elem_of_app in Hin as [Hin|Hin].
    + assert (existsb (has_user u) (Tokens d) = true); [|congruence].
      apply existsb_exists. exists row. split; [by apply list_elem_of_In | exact Hu].
    + apply list_elem_of_singleton in Hin as ->. simpl. auto.
Qed.

(** ... and there is such a row. *)
Lemma upsert_exists now u a r d d' :
  upsert now (Some u) (Some a) r d = inr d' ->
  existsb (has_user u) (Tokens d') = true.
Proof.
  unfold upsert.
  destruct (existsb (has_user u) (Tokens d)) eqn:Hex; intros [= <-]; simpl.
  - apply existsb_has_user. rewrite user_ids_update. by apply existsb_has_user.
  - rewrite existsb_app. simpl. unfold has_user at 2. simpl.
    rewrite String.eqb_refl. by rewrite orb_true_r.
Qed.

Lemma upsert_defined now u a r d :
  exists d', upsert now (Some u) (Some a) r d = inr d'.
Proof. unfold upsert. case_match; eauto. Qed.

Lemma filter_absent (u : string) (rows : list Row) :
  u ∉ map user_id rows -> List.filter (has_user u) rows = [].
Proof.
  induction rows as [|row rows IH]; simpl; [reflexivity|].
  intros Hnotin. apply not_elem_of_cons in Hnotin as [Hne Hnotin].
  destruct (has_user u row) eqn:Hu.
  - apply has_user_eq in Hu. congruence.
  - by apply IH.
Qed.

(** With unique keys a user has at most one row. *)
Lemma unique_rows_of (u : string) (rows : list Row) :
  NoDup (map user_id rows) ->
  existsb (has_user u) rows = true ->
  exists row, List.filter (has_user u) rows = [row].
Proof.
  induction rows as [|row rows IH]; simpl; [discriminate|].
  intros Huniq Hex. apply NoDup_cons in Huniq as [Hnotin Huniq].
  destruct (has_user u row) eqn:Hu; simpl in Hex.
  - exists row. f_equal. apply has_user_eq in Hu. subst u.
    by apply filter_absent.
  - by apply IH.
Qed.

Lemma select_id_nonempty (u : string) (d : t) :
  (0 <? Z.of_nat (length (select_id u d)))%Z = existsb (has_user u) (Tokens d).
Proof.
  unfold select_id. induction (Tokens d) as [|row rows IH]; simpl; [reflexivity|].
  destruct (has_user u row); simpl; [reflexivity | exact IH].
Qed.

End DbFacts.

(** ** The blocks of the handlers *)

Ltac unfold_m :=
  unfold persist, upsertToken, appendRecord, release_quietly, getConnection,
    conn_query, conn_release, pool_end, appendFileSync, axios_post, axios_get,
    emit, res_status, res_send, res_json, res_end,
    try_finally, try_catch, bind, ret, throw, gets, modify in *.

Ltac finish :=
  repeat split; simpl;
  first [ assumption | reflexivity
        | rewrite <- ?app_assoc; reflexivity
        | symmetry; apply app_nil_r
        | idtac ].

Ltac cases := repeat (case_match; simpl in *; simplify_eq).

Section Blocks.
Context (env : gmap string string) (x : Ext).

(** Persisting never throws, sends nothing, leaves [dbPool] alone and
    calls no provider. *)
Lemma persist_returns u a r s :
  exists s' (evs : list Event),
    persist env x u a r s = (Ok tt, s')
    /\ res s' = res s
    /\ dbPool s' = dbPool s
    /\ trace s' = (trace s ++ evs)%list
    /\ List.filter outbound evs = [].
Proof.
  unfold_m. simpl. cases; do 2 eexists; (split; [reflexivity|]); simpl; finish.
Qed.


Lemma configured_true :
  configured env = true ->
  Js.truthy (env !! "REDIRECT_URI") = true
  /\ Js.truthy (env !! "CLIENT_ID") = true
  /\ Js.truthy (env !! "CLIENT_SECRET") = true.
Proof. unfold configured. rewrite !andb_true_iff. tauto. Qed.

Lemma serve_callback_no_code req s :
  has_code req = false ->
  serve (callback env x) req s = answered (text 400 "Código ausente.") s.
Proof.
  unfold has_code, serve, callback. intros ->. reflexivity.
Qed.

Lemma serve_callback_not_configured req s :
  has_code req = true ->
  configured env = false ->
  serve (callback env x) req s
  = answered (text 500 "Variáveis de ambiente não configuradas.") s.
Proof.
  unfold has_code, configured, serve, callback. intros -> Hcfg.
  rewrite <- !negb_andb, Hcfg. reflexivity.
Qed.

Lemma serve_callback_exchange_fails req s e :
  has_code req = true ->
  configured env = true ->
  exchange env x req = inl e ->
  serve (callback env x) req s = answered (failure_response env e) (posted env req s).
Proof.
  unfold has_code, exchange. intros Hcode Hcfg Hex.
  apply configured_true in Hcfg as (Hr & Hc & Hs).
  unfold serve, callback. rewrite Hcode, Hr, Hc, Hs. simpl.
  unfold try_catch, axios_post, emit, modify, bind. simpl.
  rewrite Hex. unfold failure_response. simpl.
  repeat case_match; reflexivity.
Qed.

Lemma serve_callback_profile_fails req s tok e :
  has_code req = true ->
  configured env = true ->
  exchange env x req = inr tok ->
  profile x tok = inl e ->
  serve (callback env x) req s = answered (failure_response env e) (fetched env req tok s).
Proof.
  unfold has_code, exchange, profile. intros Hcode Hcfg Hex Hpr.
  apply configured_true in Hcfg as (Hr & Hc & Hs).
  unfold serve, callback. rewrite Hcode, Hr, Hc, Hs. simpl.
  unfold try_catch, axios_post, axios_get, emit, modify, bind. simpl.
  rewrite Hex. simpl. rewrite Hpr. unfold failure_response. simpl.
  repeat case_match; reflexivity.
Qed.

Lemma serve_callback_success req s tok usr :
  has_code req = true ->
  configured env = true ->
  exchange env x req = inr tok ->
  profile x tok = inr usr ->
  serve (callback env x) req s
  = answered page
      (snd (persist env x (Discord.id usr) (Discord.access_token tok)
              (Discord.refresh_token tok) (fetched env req tok s))).
Proof.
  unfold has_code, exchange, profile. intros Hcode Hcfg Hex Hpr.
  apply configured_true in Hcfg as (Hr & Hc & Hs).
  unfold serve, callback. rewrite Hcode, Hr, Hc, Hs. simpl.
  unfold try_catch, axios_post, axios_get, emit, modify, bind at 1 2 3 4 5. simpl.
  rewrite Hex. simpl. rewrite Hpr. simpl.
  fold (posted env req s). fold (fetched env req tok s).
  destruct (persist_returns (Discord.id usr) (Discord.access_token tok)
              (Discord.refresh_token tok) (fetched env req tok s))
    as (s' & evs & Hp & Hres & _).
  unfold bind. rewrite Hp. simpl.
  unfold res_send, res_end. rewrite Hres. reflexivity.
Qed.

End Blocks.

(** ** Persisting a token *)

Section Persistence.
Context (env : gmap string string) (x : Ext).

(** The database after persisting: changed only by an upsert that went
    through. *)
Lemma persist_db u a r s :
  db (snd (persist env x u a r s))
  = if storage_ok x s then
      match Db.upsert (db_now x) u a (Js.or_str r "") (db s) with
      | inr d' => d'
      | inl _ => db s
      end
    else db s.
Proof.
  unfold storage_ok.
  destruct (dbPool s) as [p|] eqn:Hp.
  - rewrite bool_decide_eq_true_2 by eauto.
    unfold_m. rewrite Hp. simpl.
    destruct (conn_ok x), (query_ok x); simpl; cases; reflexivity.
  - rewrite bool_decide_eq_false_2 by (intros [? ?]; discriminate).
    unfold_m. rewrite Hp. simpl. cases; reflexivity.
Qed.

(** The fallback file after persisting: changed only when the pool is
    [null], [FILE_FALLBACK] is ['true'] and the write goes through. *)
Lemma persist_tokens_log u a r s :
  tokens_log (snd (persist env x u a r s))
  = match dbPool s with
    | Some _ => tokens_log s
    | None =>
        if bool_decide (env !! "FILE_FALLBACK" = Some "true") && append_ok x then
          Some (default "" (tokens_log s)
                +:+ (Json.stringify (Json.JObj (Json.defined (record x u a r)))
                     +:+ Js.lf))
        else tokens_log s
    end.
Proof.
  unfold_m. simpl. cases; reflexivity.
Qed.

(** The record of the fallback file has string or [null] values. *)
Lemma record_flat u a r :
  Json.defined (record x u a r) = Json.flat (fallback_fields (now x) u a r).
Proof.
  unfold record, fallback_fields. destruct u, a; simpl; reflexivity.
Qed.

End Persistence.

(** ** [GET /check] *)

Section CheckRoute.
Context (x : Ext).

(** [/check] answers 200 with [hasToken] true exactly when the user id
    is given, the lookup goes through and finds a row. *)
Lemma check_answer req s :
  reply (check x) req s
  = Some (has_token
            (Js.truthy (query req !! "user_id")
             && storage_ok x s
             && existsb (Db.has_user (Js.to_String (query req !! "user_id")))
                  (Db.Tokens (db s)))).
Proof.
  unfold reply, serve, check, storage_ok.
  destruct (Js.truthy (query req !! "user_id")) eqn:Hu; [|reflexivity].
  destruct (dbPool s) as [p|] eqn:Hp.
  - rewrite bool_decide_eq_true_2 by eauto.
    unfold_m. simpl. rewrite Hp. simpl.
    destruct (conn_ok x), (query_ok x); simpl;
      rewrite ?DbFacts.select_id_nonempty; cases; reflexivity.
  - rewrite bool_decide_eq_false_2 by (intros [? ?]; discriminate).
    unfold_m. simpl. rewrite Hp. reflexivity.
Qed.

Lemma serve_check_no_user req s :
  Js.truthy (query req !! "user_id") = false ->
  serve (check x) req s = answered (has_token false) s.
Proof. unfold serve, check. intros ->. reflexivity. Qed.

(** [/check] writes neither the pool variable nor the table. *)
Lemma serve_check_frame req s :
  dbPool (serve (check x) req s) = dbPool s
  /\ db (serve (check x) req s) = db s
  /\ tokens_log (serve (check x) req s) = tokens_log s.
Proof.
  unfold serve, check. unfold_m. simpl. cases; auto.
Qed.

End CheckRoute.

(** ** [GET /callback] as a whole *)

Section Callback.
Context (env : gmap string string) (x : Ext).

(** The five ways a request to [/callback] can go. *)
Lemma serve_callback_cases req s :
  serve (callback env x) req s
  = if negb (has_code req) then answered (text 400 "Código ausente.") s
    else if negb (configured env) then
      answered (text 500 "Variáveis de ambiente não configuradas.") s
    else
      match exchange env x req with
      | inl e => answered (failure_response env e) (posted env req s)
      | inr tok =>
          match profile x tok with
          | inl e => answered (failure_response env e) (fetched env req tok s)
          | inr usr =>
              answered page
                (snd (persist env x (Discord.id usr) (Discord.access_token tok)
                        (Discord.refresh_token tok) (fetched env req tok s)))
          end
      end.
Proof.
  destruct (has_code req) eqn:Hcode; simpl;
    [|by apply serve_callback_no_code].
  destruct (configured env) eqn:Hcfg; simpl;
    [|by apply serve_callback_not_configured].
  destruct (exchange env x req) as [e|tok] eqn:Hex;
    [by apply serve_callback_exchange_fails|].
  destruct (profile x tok) as [e|usr] eqn:Hpr;
    [by apply serve_callback_profile_fails | by apply serve_callback_success].
Qed.

(** No request to [/callback] writes the pool variable. *)
Lemma serve_callback_dbPool req s :
  dbPool (serve (callback env x) req s) = dbPool s.
Proof.
  rewrite serve_callback_cases. repeat case_match; try reflexivity.
  match goal with
  | |- context [persist env x ?u ?a ?r ?s0] =>
      destruct (persist_returns env x u a r s0) as (s' & evs & Hp & _ & Hpool & _);
      rewrite Hp
  end.
  exact Hpool.
Qed.

(** A request to [/callback] leaves the table as it is or as one
    upsert makes it. *)
Lemma serve_callback_db req s :
  db (serve (callback env x) req s) = db s
  \/ exists now u a r,
       Db.upsert now u a r (db s) = inr (db (serve (callback env x) req s)).
Proof.
  rewrite serve_callback_cases. repeat case_match; auto.
  unfold answered. simpl. rewrite persist_db.
  change (db (fetched env req _ s)) with (db s).
  destruct (storage_ok _ _); auto.
  destruct (Db.upsert _ _ _ _ _) eqn:Hup; eauto 10.
Qed.

End Callback.

(** ** The start of the process *)

Section Startup.
Context (env : gmap string string) (x : Ext).

Lemma hasDbConfig_missing (k : string) :
  k ∈ required_db_fields ->
  Js.truthy (env !! k) = false ->
  hasDbConfig env = false.
Proof.
  unfold required_db_fields, hasDbConfig. intros Hk Hmiss.
  repeat (apply elem_of_cons in Hk as [->|Hk]; [rewrite Hmiss; by rewrite ?andb_false_r|]).
  inversion Hk.
Qed.

(** Without the configuration nothing is created and nothing is tried. *)
Lemma startup_disabled s :
  hasDbConfig env = false ->
  snd (startup env x s) = set_dbPool None s.
Proof.
  unfold startup, createPool, initDatabase. intros ->. reflexivity.
Qed.

(** When the connection or the schema statement fails, the pool is
    ended once and the variable is reset. *)
Lemma startup_init_fails s :
  hasDbConfig env = true ->
  conn_ok x && query_ok x = false ->
  dbPool (snd (startup env x s)) = None
  /\ List.filter is_pool_end (new_events s (snd (startup env x s))) = [PoolEnd].
Proof.
  unfold startup, createPool, initDatabase, new_events. intros -> Hfail.
  unfold_m. simpl.
  destruct (conn_ok x), (query_ok x); try discriminate; simpl; cases.
  all: split; simpl; [reflexivity|].
  all: rewrite <- ?app_assoc, drop_app_length; reflexivity.
Qed.

(** When both go through, the pool stays. *)
Lemma startup_enabled s :
  hasDbConfig env = true ->
  conn_ok x = true ->
  query_ok x = true ->
  is_Some (dbPool (snd (startup env x s))).
Proof.
  unfold startup, createPool, initDatabase. intros -> Hc Hq.
  unfold_m. simpl. rewrite Hc. simpl. rewrite Hq. simpl. cases; eauto.
Qed.

End Startup.

(** ** Invariants of the served requests *)

Lemma step_dbPool env s s' : step env s s' -> dbPool s' = dbPool s.
Proof.
  destruct 1.
  - apply serve_callback_dbPool.
  - reflexivity.
  - apply serve_check_frame.
Qed.

Lemma step_unique env s s' :
  step env s s' -> unique_user_ids (db s) -> unique_user_ids (db s').
Proof.
  unfold unique_user_ids. destruct 1 as [x req s|req s|x req s]; intros Huniq.
  - destruct (serve_callback_db env x req s) as [->|(now & u & a & r & Hup)];
      [exact Huniq | by eapply DbFacts.upsert_unique].
  - exact Huniq.
  - destruct (serve_check_frame x req s) as (_ & -> & _). exact Huniq.
Qed.

Lemma steps_unique env s s' :
  rtc (step env) s s' -> unique_user_ids (db s) -> unique_user_ids (db s').
Proof.
  induction 1 as [|s s1 s' Hstep _ IH]; [auto|].
  intros Huniq. apply IH. by eapply step_unique.
Qed.

(** ** The calls of each run *)

Section Traces.
Context (env : gmap string string) (x : Ext).

Lemma persist_trace u a r s :
  trace (snd (persist env x u a r s))
  = (trace s ++ persist_events env x u a r s)%list.
Proof.
  unfold persist_events. unfold_m. simpl.
  cases; simpl; rewrite <- ?app_assoc, ?app_nil_r; reflexivity.
Qed.

Lemma serve_callback_trace req s :
  trace (serve (callback env x) req s) = (trace s ++ callback_events env x req s)%list.
Proof.
  rewrite serve_callback_cases. unfold callback_events.
  destruct (has_code req); simpl; [|by rewrite app_nil_r].
  destruct (configured env); simpl; [|by rewrite app_nil_r].
  destruct (exchange env x req) as [e|tok]; [reflexivity|].
  destruct (profile x tok) as [e|usr].
  - simpl. by rewrite <- app_assoc.
  - simpl. rewrite persist_trace. simpl. by rewrite <- !app_assoc.
Qed.

Lemma serve_check_trace req s :
  trace (serve (check x) req s) = (trace s ++ check_events x req s)%list.
Proof.
  unfold serve, check, check_events.
  destruct (Js.truthy (query req !! "user_id")); simpl; [|by rewrite app_nil_r].
  unfold_m. simpl. cases; simpl; rewrite <- ?app_assoc, ?app_nil_r; reflexivity.
Qed.

Lemma startup_trace s :
  trace (snd (startup env x s)) = (trace s ++ startup_events env x)%list.
Proof.
  unfold startup, createPool, initDatabase, startup_events, pool_of.
  destruct (hasDbConfig env); simpl; [|by rewrite app_nil_r].
  unfold_m. simpl. cases; simpl; rewrite <- ?app_assoc, ?app_nil_r; reflexivity.
Qed.

End Traces.

Lemma new_events_app s s' (evs : list Event) :
  trace s' = (trace s ++ evs)%list -> new_events s s' = evs.
Proof. unfold new_events. intros ->. apply drop_app_length. Qed.

(** ** A run from start to finish *)

(** [GET /callback?code=ABC] with the configuration complete and a
    provider that answers [T1], [R1] and then [U1]: the table holds the
    one row [(U1, T1, R1)], the client gets the page, and [/check] then
    finds the user. *)
Example callback_then_check :
  let s := serve (callback Sample.env_db Sample.x_ok) Sample.req_code Sample.s_enabled in
  Db.Tokens (db s)
  = [ {| Db.id := 1; Db.user_id := "U1"; Db.access_token := "T1";
         Db.refresh_token := Some "R1"; Db.created_at := "2024-05-01 12:00:00" |} ]
  /\ sent (res s) = Some page
  /\ reply (check Sample.x_ok) (Sample.req_user "U1") s = Some (has_token true)
  /\ reply (check Sample.x_ok) (Sample.req_user "U2") s = Some (has_token false).
Proof. repeat split; reflexivity. Qed.

(** * The claims *)



(** C8. A request to [/callback] without a code (the query parameter
    is absent, or empty, which the handler treats alike) is answered
    400 with a fixed message; a request with a code while one of
    [REDIRECT_URI], [CLIENT_ID], [CLIENT_SECRET] is unset is answered
    500 with a fixed message; in both cases the trace is unchanged, so
    no outbound call is made. *)
Theorem callback_validation env x req s :
  (has_code req = false ->
   reply (callback env x) req s = Some (text 400 "Código ausente.")
   /\ trace (serve (callback env x) req s) = trace s)
  /\ (has_code req = true ->
      env !! "REDIRECT_URI" = None \/ env !! "CLIENT_ID" = None
      \/ env !! "CLIENT_SECRET" = None ->
      reply (callback env x) req s
      = Some (text 500 "Variáveis de ambiente não configuradas.")
      /\ trace (serve (callback env x) req s) = trace s).
Proof.
  split.
  - intros Hcode. unfold reply. rewrite serve_callback_no_code by exact Hcode.
    split; reflexivity.
  - intros Hcode Hunset.
    assert (configured env = false) as Hcfg.
    { unfold configured.
      destruct Hunset as [-> | [-> | ->]]; simpl; by rewrite ?andb_false_r. }
    unfold reply. rewrite serve_callback_not_configured by assumption.
    split; reflexivity.
Qed.

Lemma callback_validation_witness :
  (reply (callback Sample.env_min Sample.x_ok) Sample.req_empty Sample.s_init
   = Some (text 400 "Código ausente.")
   /\ trace (serve (callback Sample.env_min Sample.x_ok) Sample.req_empty Sample.s_init)
      = [])
  /\ (reply (callback ∅ Sample.x_ok) Sample.req_code Sample.s_init
      = Some (text 500 "Variáveis de ambiente não configuradas.")
      /\ trace (serve (callback ∅ Sample.x_ok) Sample.req_code Sample.s_init) = []).
Proof.
  split.
  - apply (callback_validation Sample.env_min Sample.x_ok Sample.req_empty Sample.s_init).
    reflexivity.
  - apply (callback_validation ∅ Sample.x_ok Sample.req_code Sample.s_init).
    + reflexivity.
    + left. reflexivity.
Defined.

(** The text stored for [r || ''] is [r], or the empty string. *)
Lemma or_str_default (r : option string) : Js.or_str r "" = default "" r.
Proof.
  destruct r as [r|]; [|reflexivity]. unfold Js.or_str, Js.truthy. simpl.
  destruct (String.eqb r "") eqn:Hr; simpl; [|reflexivity].
  apply String.eqb_eq in Hr. by subst r.
Qed.

(** [r || null] is [null] for an undefined or empty [r]. *)
Lemma fallback_fields_members now u a r :
  fallback_fields now u a r = fallback_members now u a r.
Proof.
  unfold fallback_fields, fallback_members, Js.or_null, Js.truthy.
  destruct r as [r|]; [|reflexivity].
  destruct (String.eqb r ""); reflexivity.
Qed.

(** The calls after the two provider calls, as the handler makes
    them. *)
Lemma persist_events_storing env x tok usr s s0 :
  dbPool s0 = dbPool s ->
  persist_events env x (Discord.id usr) (Discord.access_token tok)
    (Discord.refresh_token tok) s0
  = storing_calls env x tok usr s.
Proof.
  intros Hpool. unfold persist_events, storing_calls. rewrite Hpool.
  destruct (dbPool s); [by rewrite or_str_default|].
  rewrite record_flat, fallback_fields_members.
  case_bool_decide as Hflag.
  - by rewrite Hflag.
  - repeat case_match; try reflexivity; congruence.
Qed.

(** C7. During a request to [/callback] with a code and a complete
    configuration the calls made are, in this order: one token
    exchange; only when it succeeded, one profile fetch; only when that
    succeeded too, the calls that store the token (one connection, one
    upsert and one release, or one append to the file).  No call occurs
    twice in the run: nothing is retried, neither a provider call nor a
    database or file call. *)
Theorem provider_calls env x req s :
  has_code req = true ->
  configured env = true ->
  trace (serve (callback env x) req s)
  = (trace s ++ new_events s (serve (callback env x) req s))%list
  /\ new_events s (serve (callback env x) req s)
     = AxiosPost "https://discord.com/api/oauth2/token"
         [ ("client_id", Js.to_String (env !! "CLIENT_ID"));
           ("client_secret", Js.to_String (env !! "CLIENT_SECRET"));
           ("grant_type", "authorization_code");
           ("code", Js.to_String (query req !! "code"));
           ("redirect_uri", Js.to_String (env !! "REDIRECT_URI")) ]
       :: match exchange env x req with
          | inl _ => []
          | inr tok =>
              AxiosGet "https://discord.com/api/users/@me"
                ("Bearer " +:+ Js.to_String (Discord.access_token tok))
              :: match profile x tok with
                 | inl _ => []
                 | inr usr => storing_calls env x tok usr s
                 end
          end
  /\ NoDup (new_events s (serve (callback env x) req s))
  /\ List.filter outbound (new_events s (serve (callback env x) req s))
     = AxiosPost token_url
         (URLSearchParams (query req !! "code") (env !! "REDIRECT_URI")
            (env !! "CLIENT_ID") (env !! "CLIENT_SECRET"))
       :: match exchange env x req with
          | inr tok =>
              [AxiosGet users_me_url
                 ("Bearer " +:+ Js.to_String (Discord.access_token tok))]
          | inl _ => []
          end.
Proof.
  intros Hcode Hcfg.
  pose proof (serve_callback_trace env x req s) as Htrace.
  rewrite (new_events_app _ _ _ Htrace).
  split; [exact Htrace|].
  unfold callback_events. rewrite Hcode, Hcfg. cbn [negb].
  change token_url with "https://discord.com/api/oauth2/token".
  change users_me_url with "https://discord.com/api/users/@me".
  unfold URLSearchParams.
  destruct (exchange env x req) as [e|tok].
  - split; [reflexivity|]. split; [apply NoDup_singleton | reflexivity].
  - destruct (profile x tok) as [e|usr].
    + split; [reflexivity|]. split; [|reflexivity].
      apply NoDup_cons. split; [|apply NoDup_singleton].
      intros Hin. apply list_elem_of_singleton in Hin. discriminate.
    + rewrite (persist_events_storing env x tok usr s s eq_refl).
      split; [reflexivity|]. unfold storing_calls. split.
      * destruct (dbPool s), (conn_ok x); repeat case_match;
          repeat (apply NoDup_cons; split;
                  [intros Hin;
                   repeat (apply elem_of_cons in Hin as [Hin|Hin]; [discriminate|]);
                   inversion Hin|]);
          apply NoDup_nil_2.
      * destruct (dbPool s), (conn_ok x); repeat case_match; reflexivity.
Qed.

Lemma provider_calls_witness :
  new_events Sample.s_enabled
    (serve (callback Sample.env_db Sample.x_ok) Sample.req_code Sample.s_enabled)
  = [ AxiosPost "https://discord.com/api/oauth2/token"
        [ ("client_id", "1234"); ("client_secret", "s3cr3t");
          ("grant_type", "authorization_code"); ("code", "ABC");
          ("redirect_uri", "https://bot.example/callback") ];
      AxiosGet "https://discord.com/api/users/@me" "Bearer T1";
      GetConnection;
      Query (Db.Upsert (Some "U1") (Some "T1") "R1");
      Release ]
  /\ NoDup
       (new_events Sample.s_enabled
          (serve (callback Sample.env_db Sample.x_ok) Sample.req_code Sample.s_enabled)).
Proof.
  destruct (provider_calls Sample.env_db Sample.x_ok Sample.req_code Sample.s_enabled
              eq_refl eq_refl) as (_ & Hcalls & Hnodup & _).
  split; [exact Hcalls | exact Hnodup].
Defined.

(** C3, as amended. Unless [DEBUG] is ['true'], a request to
    [/callback] whose token exchange fails with a provider reply whose
    [error] is ['invalid_grant'] is answered 400 with the message that
    asks to restart the authorization flow. *)
Theorem invalid_grant_400 env x req s e data :
  has_code req = true ->
  configured env = true ->
  env !! "DEBUG" <> Some "true" ->
  exchange env x req = inl e ->
  response e = Some data ->
  Json.prop data "error" = Some (Json.JStr "invalid_grant") ->
  reply (callback env x) req s
  = Some (text 400
            "Código inválido ou expirado. Reinicie o fluxo de autorização e tente novamente.").
Proof.
  intros Hcode Hcfg Hdebug Hex Hresp Herr. unfold reply.
  rewrite (serve_callback_exchange_fails env x req s e) by assumption.
  unfold failure_response. rewrite bool_decide_eq_false_2 by exact Hdebug.
  unfold is_invalid_grant. rewrite Hresp, Herr.
  destruct data; try discriminate. reflexivity.
Qed.

Lemma invalid_grant_400_witness :
  Sample.env_min !! "DEBUG" <> Some "true"
  /\ reply (callback Sample.env_min Sample.x_invalid_grant) Sample.req_code Sample.s_init
     = Some (text 400
               "Código inválido ou expirado. Reinicie o fluxo de autorização e tente novamente.").
Proof.
  split; [vm_compute; discriminate|].
  eapply (invalid_grant_400 Sample.env_min Sample.x_invalid_grant Sample.req_code
            Sample.s_init Sample.invalid_grant);
    first [reflexivity | vm_compute; discriminate].
Defined.

(** C3, as stated, fails: with [DEBUG] set to ['true'] the same reply
    of the provider is answered 500. *)
Lemma invalid_grant_500_in_debug :
  has_code Sample.req_code = true
  /\ configured Sample.env_debug = true
  /\ exchange Sample.env_debug Sample.x_invalid_grant Sample.req_code
     = inl Sample.invalid_grant
  /\ (exists data,
        response Sample.invalid_grant = Some data
        /\ Json.prop data "error" = Some (Json.JStr "invalid_grant"))
  /\ status <$> reply (callback Sample.env_debug Sample.x_invalid_grant)
                  Sample.req_code Sample.s_init
     = Some 500%Z.
Proof.
  repeat split; try reflexivity.
  eexists. split; reflexivity.
Qed.

(** What the [catch] of [/callback] picks as payload. *)
Lemma errData_payload (e : AxiosError) : errData (EAxios e) = error_payload e.
Proof.
  unfold errData, error_payload, Js.truthy.
  assert (forall data, Json.truthy data = negb (falsy data)) as Htruthy.
  { intros [| [] | text | str | items | members]; reflexivity. }
  destruct (response e) as [data|].
  - rewrite Htruthy.
    destruct (falsy data), (String.eqb (message e) ""); reflexivity.
  - destruct (String.eqb (message e) ""); reflexivity.
Qed.

(** C10. When [DEBUG] is ['true'], every failure of the token exchange
    or of the profile fetch, a provider [invalid_grant] included, is
    answered 500 with a body that is ['Erro ao autorizar: '] followed by
    the [JSON.stringify] of the error payload: the body of the
    provider's response when it is not falsy, else the error's message
    when it is not empty, else the error object.  In particular a
    response body that is a JSON object is sent back as it is, and an
    error without a response is reported by its message.  No request
    with a code is answered 400. *)
Theorem debug_failure_500 env x req s :
  has_code req = true ->
  configured env = true ->
  env !! "DEBUG" = Some "true" ->
  (forall e,
     fails_with env x req e ->
     reply (callback env x) req s
     = Some {| status := 500;
               body := Text ("Erro ao autorizar: "
                             +:+ Json.stringify (error_payload e)) |})
  /\ (forall e members,
        fails_with env x req e ->
        response e = Some (Json.JObj members) ->
        reply (callback env x) req s
        = Some {| status := 500;
                  body := Text ("Erro ao autorizar: "
                                +:+ Json.stringify (Json.JObj members)) |})
  /\ (forall e,
        fails_with env x req e ->
        response e = None ->
        message e <> "" ->
        reply (callback env x) req s
        = Some {| status := 500;
                  body := Text ("Erro ao autorizar: "
                                +:+ Json.stringify (Json.JStr (message e))) |})
  /\ status <$> reply (callback env x) req s <> Some 400%Z.
Proof.
  intros Hcode Hcfg Hdebug.
  assert (forall e, failure_response env e
          = {| status := 500;
               body := Text ("Erro ao autorizar: "
                             +:+ Json.stringify (error_payload e)) |})
    as Hfail.
  { intros e. unfold failure_response.
    by rewrite bool_decide_eq_true_2, errData_payload. }
  assert (forall e,
            fails_with env x req e ->
            reply (callback env x) req s
            = Some {| status := 500;
                      body := Text ("Erro ao autorizar: "
                                    +:+ Json.stringify (error_payload e)) |})
    as Hreply.
  { intros e [Hex | (tok & Hex & Hpr)]; unfold reply.
    - rewrite (serve_callback_exchange_fails env x req s e) by assumption.
      simpl. by rewrite Hfail.
    - rewrite (serve_callback_profile_fails env x req s tok e) by assumption.
      simpl. by rewrite Hfail. }
  split; [exact Hreply|]. split; [|split].
  - intros e members Hfails Hresp. rewrite (Hreply e Hfails).
    unfold error_payload. by rewrite Hresp.
  - intros e Hfails Hresp Hmsg. rewrite (Hreply e Hfails).
    unfold error_payload. rewrite Hresp.
    by rewrite (proj2 (String.eqb_neq _ _) Hmsg).
  - unfold reply. rewrite serve_callback_cases, Hcode, Hcfg. simpl.
    repeat case_match; simpl; rewrite ?Hfail; discriminate.
Qed.

Lemma debug_failure_500_witness :
  fails_with Sample.env_debug Sample.x_invalid_grant Sample.req_code Sample.invalid_grant
  /\ reply (callback Sample.env_debug Sample.x_invalid_grant) Sample.req_code Sample.s_init
     = Some {| status := 500;
               body := Text ("Erro ao autorizar: "
                             +:+ Json.stringify
                                   (Json.JObj
                                      [("error", Json.JStr "invalid_grant");
                                       ("error_description",
                                        Json.JStr "Invalid code")])) |}
  /\ Json.stringify
       (Json.JObj
          [("error", Json.JStr "invalid_grant");
           ("error_description", Json.JStr "Invalid code")])
     = "{" +:+ String "034"%char "error" +:+ String "034"%char ":"
       +:+ String "034"%char "invalid_grant" +:+ String "034"%char ","
       +:+ String "034"%char "error_description" +:+ String "034"%char ":"
       +:+ String "034"%char "Invalid code" +:+ String "034"%char "}".
Proof.
  assert (fails_with Sample.env_debug Sample.x_invalid_grant Sample.req_code
            Sample.invalid_grant) as Hfails by (left; reflexivity).
  split; [exact Hfails|]. split; [|reflexivity].
  apply (proj1 (proj2 (debug_failure_500 Sample.env_debug Sample.x_invalid_grant
                         Sample.req_code Sample.s_init eq_refl eq_refl eq_refl))
           Sample.invalid_grant);
    first [exact Hfails | reflexivity].
Defined.

(** C2. The transitions of the persistence state, [dbPool]:
    - when a required database field is missing, the start of the
      process leaves [dbPool] at [null] and makes no call at all;
    - when the connection or the schema statement fails during
      [initDatabase], [dbPool.end()] is called once and [dbPool]
      becomes [null];
    - once the pool is there, no request demotes it, whatever error
      the upsert of [/callback] or the lookup of [/check] meets. *)
Theorem persistence_state_transitions env x s :
  (forall k,
     k ∈ required_db_fields ->
     env !! k = None ->
     dbPool (snd (startup env x s)) = None
     /\ trace (snd (startup env x s)) = trace s)
  /\ (hasDbConfig env = true ->
      conn_ok x && query_ok x = false ->
      dbPool (snd (startup env x s)) = None
      /\ List.filter is_pool_end (new_events s (snd (startup env x s))) = [PoolEnd])
  /\ (forall pool req,
        dbPool s = Some pool ->
        dbPool (serve (callback env x) req s) = Some pool
        /\ dbPool (serve (check x) req s) = Some pool).
Proof.
  split; [|split].
  - intros k Hk Hmiss.
    rewrite startup_disabled; [split; reflexivity|].
    apply (hasDbConfig_missing env k Hk). by rewrite Hmiss.
  - apply startup_init_fails.
  - intros pool req Hpool. split.
    + by rewrite serve_callback_dbPool.
    + by rewrite (proj1 (serve_check_frame x req s)).
Qed.

Lemma persistence_state_transitions_witness :
  (dbPool (snd (startup Sample.env_no_password Sample.x_ok Sample.s_init)) = None
   /\ trace (snd (startup Sample.env_no_password Sample.x_ok Sample.s_init)) = [])
  /\ (dbPool (snd (startup Sample.env_db Sample.x_query_fails Sample.s_init)) = None
      /\ List.filter is_pool_end
           (new_events Sample.s_init
              (snd (startup Sample.env_db Sample.x_query_fails Sample.s_init)))
         = [PoolEnd])
  /\ (exists pool,
        dbPool Sample.s_enabled = Some pool
        /\ dbPool (serve (callback Sample.env_db Sample.x_query_fails) Sample.req_code
                     Sample.s_enabled) = Some pool
        /\ dbPool (serve (check Sample.x_query_fails) (Sample.req_user "U1")
                     Sample.s_enabled) = Some pool).
Proof.
  split; [|split].
  - apply (proj1 (persistence_state_transitions Sample.env_no_password Sample.x_ok
                    Sample.s_init) "MYSQLPASSWORD").
    + unfold required_db_fields. set_solver.
    + reflexivity.
  - apply (proj1 (proj2 (persistence_state_transitions Sample.env_db
                           Sample.x_query_fails Sample.s_init)));
      reflexivity.
  - eexists. split; [reflexivity|]. split.
    + apply (proj2 (proj2 (persistence_state_transitions Sample.env_db
                             Sample.x_query_fails Sample.s_enabled))
               _ Sample.req_code eq_refl).
    + apply (proj2 (proj2 (persistence_state_transitions Sample.env_db
                             Sample.x_query_fails Sample.s_enabled))
               _ (Sample.req_user "U1") eq_refl).
Defined.

(** C4, as amended. [/check] always answers 200 with a body
    [{"hasToken": b}].  When [user_id] is absent or empty, [b] is
    [false] and no call is made.  Otherwise, when the lookup goes
    through, [b] is [true] exactly when the table has a row with that
    [user_id]; when the pool is [null], or the connection or the query
    fails, [b] is [false]. *)
Theorem check_reply x req s :
  (exists b, reply (check x) req s = Some (check_body b))
  /\ (query req !! "user_id" = None \/ query req !! "user_id" = Some "" ->
      reply (check x) req s = Some (check_body false)
      /\ trace (serve (check x) req s) = trace s)
  /\ (forall u,
        query req !! "user_id" = Some u ->
        u <> "" ->
        storage_ok x s = true ->
        exists b,
          reply (check x) req s = Some (check_body b)
          /\ (b = true <-> exists row, row ∈ Db.Tokens (db s) /\ Db.user_id row = u))
  /\ (storage_ok x s = false ->
      reply (check x) req s = Some (check_body false)).
Proof.
  rewrite check_answer.
  change has_token with check_body.
  split; [eauto|]. split; [|split].
  - intros Hno.
    assert (Js.truthy (query req !! "user_id") = false) as Hfalsy
      by (destruct Hno as [-> | ->]; reflexivity).
    rewrite Hfalsy. split; [reflexivity|].
    by rewrite serve_check_no_user.
  - intros u Hu Hne ->. rewrite Hu. simpl.
    assert (String.eqb u "" = false) as -> by by apply String.eqb_neq.
    simpl. eexists. split; [reflexivity|].
    rewrite existsb_exists. split.
    + intros (row & Hin & Hrow). exists row.
      split; [by apply list_elem_of_In | by apply DbFacts.has_user_eq].
    + intros (row & Hin & Hrow). exists row.
      split; [by apply list_elem_of_In | by apply DbFacts.has_user_eq].
  - intros ->. by rewrite andb_false_r.
Qed.

Lemma check_reply_witness :
  reply (check Sample.x_ok) Sample.req_empty Sample.s_U1 = Some (check_body false)
  /\ (exists b,
        reply (check Sample.x_ok) (Sample.req_user "U1") Sample.s_U1 = Some (check_body b)
        /\ (b = true
            <-> exists row, row ∈ Db.Tokens (db Sample.s_U1) /\ Db.user_id row = "U1"))
  /\ reply (check Sample.x_query_fails) (Sample.req_user "U1") Sample.s_U1
     = Some (check_body false)
  /\ reply (check Sample.x_ok) (Sample.req_user "U1") Sample.s_init
     = Some (check_body false).
Proof.
  split; [|split; [|split]].
  - apply (proj1 (proj2 (check_reply Sample.x_ok Sample.req_empty Sample.s_U1))).
    left. reflexivity.
  - apply (proj1 (proj2 (proj2 (check_reply Sample.x_ok (Sample.req_user "U1")
                                  Sample.s_U1))) "U1");
      first [reflexivity | discriminate].
  - apply (proj2 (proj2 (proj2 (check_reply Sample.x_query_fails (Sample.req_user "U1")
                                  Sample.s_U1)))).
    reflexivity.
  - apply (proj2 (proj2 (proj2 (check_reply Sample.x_ok (Sample.req_user "U1")
                                  Sample.s_init)))).
    reflexivity.
Defined.

(** C4, as stated, fails for an empty [user_id]: the table has a row
    whose [user_id] is the empty string, stored by [/callback] for a
    provider reply with that id, the lookup would go through, and
    [/check?user_id=] answers [{"hasToken": false}] without asking. *)
Lemma empty_user_id_not_looked_up :
  query (Sample.req_user "") !! "user_id" = Some ""
  /\ storage_ok Sample.x_ok Edge.s_empty_id = true
  /\ (exists row, row ∈ Db.Tokens (db Edge.s_empty_id) /\ Db.user_id row = "")
  /\ reply (check Sample.x_ok) (Sample.req_user "") Edge.s_empty_id
     = Some {| status := 200;
               body := JsonBody (Json.JObj [("hasToken", Json.JBool false)]) |}
  /\ new_events Edge.s_empty_id
       (serve (check Sample.x_ok) (Sample.req_user "") Edge.s_empty_id)
     = [].
Proof.
  split; [reflexivity|]. split; [reflexivity|]. split.
  - eexists. split; [apply list_elem_of_here | reflexivity].
  - split; reflexivity.
Qed.

(** The file after a successful exchange served with the pool at
    [null]. *)
Lemma tokens_log_after_success env x req s tok usr :
  has_code req = true ->
  configured env = true ->
  exchange env x req = inr tok ->
  profile x tok = inr usr ->
  dbPool s = None ->
  tokens_log (serve (callback env x) req s)
  = if bool_decide (env !! "FILE_FALLBACK" = Some "true") && append_ok x then
      Some (default "" (tokens_log s)
            +:+ (Json.stringify
                   (Json.JObj
                      (Json.flat
                         (fallback_fields (now x) (Discord.id usr)
                            (Discord.access_token tok) (Discord.refresh_token tok))))
                 +:+ Js.lf))
    else tokens_log s.
Proof.
  intros Hcode Hcfg Hex Hpr Hpool.
  rewrite (serve_callback_success env x req s tok usr) by assumption.
  unfold answered. simpl. rewrite persist_tokens_log, record_flat.
  change (dbPool (fetched env req tok s)) with (dbPool s). rewrite Hpool.
  reflexivity.
Qed.

(** The line the fallback appends, read back. *)
Lemma file_fallback_line env x req s tok usr u a :
  has_code req = true ->
  configured env = true ->
  exchange env x req = inr tok ->
  profile x tok = inr usr ->
  Discord.id usr = Some u ->
  Discord.access_token tok = Some a ->
  dbPool s = None ->
  env !! "FILE_FALLBACK" = Some "true" ->
  append_ok x = true ->
  exists line,
    tokens_log (serve (callback env x) req s)
    = Some (default "" (tokens_log s) +:+ (line +:+ Js.lf))
    /\ Json.occurs Js.lf_char line = false
    /\ Json.read_object line
       = Some [ ("created_at", Some (now x));
                ("user_id", Some u);
                ("access_token", Some a);
                ("refresh_token", Js.or_null (Discord.refresh_token tok)) ].
Proof.
  intros Hcode Hcfg Hex Hpr Hu Ha Hpool Hflag Hwrite.
  rewrite (tokens_log_after_success env x req s tok usr) by assumption.
  rewrite bool_decide_eq_true_2, Hwrite by exact Hflag. cbn [andb].
  eexists. split; [reflexivity|]. split.
  - apply JsonFacts.stringify_flat_no_lf.
  - rewrite JsonFacts.read_object_stringify, Hu, Ha. reflexivity.
Qed.

(** The line the fallback appends for any successful exchange, read
    back. *)
Lemma fallback_line_members env x req s tok usr :
  has_code req = true ->
  configured env = true ->
  exchange env x req = inr tok ->
  profile x tok = inr usr ->
  dbPool s = None ->
  env !! "FILE_FALLBACK" = Some "true" ->
  append_ok x = true ->
  exists line,
    tokens_log (serve (callback env x) req s)
    = Some (default "" (tokens_log s) +:+ (line +:+ String "010"%char ""))
    /\ Json.occurs "010"%char line = false
    /\ Json.read_object line
       = Some (fallback_members (now x) (Discord.id usr)
                 (Discord.access_token tok) (Discord.refresh_token tok)).
Proof.
  intros Hcode Hcfg Hex Hpr Hpool Hflag Hwrite.
  rewrite (tokens_log_after_success env x req s tok usr) by assumption.
  rewrite bool_decide_eq_true_2, Hwrite by exact Hflag. cbn [andb].
  eexists. split; [reflexivity|]. split.
  - apply JsonFacts.stringify_flat_no_lf.
  - by rewrite JsonFacts.read_object_stringify, fallback_fields_members.
Qed.

(** C5, as amended. A successful exchange served while persistence is
    disabled:
    - is answered with the confirmation page, whether or not the
      fallback is enabled and whether or not its write goes through;
    - with [FILE_FALLBACK] at ['true'] and a write that goes through,
      appends to [tokens.log] exactly one line, ended by a line feed
      and holding none: a well-formed JSON object whose members are
      [created_at], then [user_id] and [access_token] when the
      provider's replies carry them, then [refresh_token]; all four
      when the replies carry an access token and an id;
    - with [FILE_FALLBACK] at ['true'] and a write that fails, leaves
      the file as it was;
    - with [FILE_FALLBACK] unset (or anything but ['true']), appends
      nothing. *)
Theorem file_fallback env x req s tok usr :
  has_code req = true ->
  configured env = true ->
  exchange env x req = inr tok ->
  profile x tok = inr usr ->
  dbPool s = None ->
  reply (callback env x) req s = Some page
  /\ (env !! "FILE_FALLBACK" = Some "true" ->
      append_ok x = true ->
      exists line,
        tokens_log (serve (callback env x) req s)
        = Some (default "" (tokens_log s) +:+ (line +:+ String "010"%char ""))
        /\ Json.occurs "010"%char line = false
        /\ Json.read_object line
           = Some (fallback_members (now x) (Discord.id usr)
                     (Discord.access_token tok) (Discord.refresh_token tok))
        /\ (forall u a,
              Discord.id usr = Some u ->
              Discord.access_token tok = Some a ->
              Json.read_object line
              = Some [ ("created_at", Some (now x));
                       ("user_id", Some u);
                       ("access_token", Some a);
                       ("refresh_token",
                        match Discord.refresh_token tok with
                        | Some r => if String.eqb r "" then None else Some r
                        | None => None
                        end) ]))
  /\ (env !! "FILE_FALLBACK" = Some "true" ->
      append_ok x = false ->
      tokens_log (serve (callback env x) req s) = tokens_log s)
  /\ (env !! "FILE_FALLBACK" <> Some "true" ->
      tokens_log (serve (callback env x) req s) = tokens_log s).
Proof.
  intros Hcode Hcfg Hex Hpr Hpool.
  split.
  { unfold reply. by rewrite (serve_callback_success env x req s tok usr). }
  split; [|split].
  - intros Hflag Hwrite.
    destruct (fallback_line_members env x req s tok usr) as (line & Hlog & Hlf & Hread);
      try assumption.
    exists line. split; [exact Hlog|]. split; [exact Hlf|]. split; [exact Hread|].
    intros u a Hu Ha. rewrite Hread, Hu, Ha. reflexivity.
  - intros Hflag Hwrite.
    rewrite (tokens_log_after_success env x req s tok usr) by assumption.
    by rewrite Hwrite, andb_false_r.
  - intros Hflag.
    rewrite (tokens_log_after_success env x req s tok usr) by assumption.
    by rewrite bool_decide_eq_false_2.
Qed.

Lemma file_fallback_witness :
  reply (callback Sample.env_fallback Sample.x_ok) Sample.req_code Sample.s_init
  = Some page
  /\ exists line,
       tokens_log (serve (callback Sample.env_fallback Sample.x_ok) Sample.req_code
                     Sample.s_init)
       = Some ("" +:+ (line +:+ String "010"%char ""))
       /\ Json.occurs "010"%char line = false
       /\ Json.read_object line
          = Some [ ("created_at", Some "2024-05-01T12:00:00.000Z");
                   ("user_id", Some "U1");
                   ("access_token", Some "T1");
                   ("refresh_token", Some "R1") ].
Proof.
  destruct (file_fallback Sample.env_fallback Sample.x_ok Sample.req_code Sample.s_init
              Sample.tokens_T1_R1 Sample.user_U1
              eq_refl eq_refl eq_refl eq_refl eq_refl)
    as (Hpage & Hline & _).
  split; [exact Hpage|].
  destruct (Hline eq_refl eq_refl) as (line & Hlog & Hlf & _ & Hfour).
  exists line. split; [exact Hlog|]. split; [exact Hlf|].
  exact (Hfour "U1" "T1" eq_refl eq_refl).
Defined.

(** C5, as stated, fails when the profile reply carries no [id]: the
    exchange and the profile fetch succeed, the client gets the page,
    and the one line appended has the members [created_at],
    [access_token] and [refresh_token] only. *)
Lemma fallback_line_without_user_id :
  exchange Sample.env_fallback Edge.x_no_id Sample.req_code = inr Sample.tokens_T1_R1
  /\ profile Edge.x_no_id Sample.tokens_T1_R1 = inr {| Discord.id := None |}
  /\ reply (callback Sample.env_fallback Edge.x_no_id) Sample.req_code Sample.s_init
     = Some page
  /\ exists line,
       tokens_log (serve (callback Sample.env_fallback Edge.x_no_id) Sample.req_code
                     Sample.s_init)
       = Some (line +:+ String "010"%char "")
       /\ Json.read_object line
          = Some [ ("created_at", Some "2024-05-01T12:00:00.000Z");
                   ("access_token", Some "T1");
                   ("refresh_token", Some "R1") ].
Proof.
  split; [reflexivity|]. split; [reflexivity|]. split; [reflexivity|].
  exists (Json.stringify
            (Json.JObj
               (Json.flat
                  [ ("created_at", Some "2024-05-01T12:00:00.000Z");
                    ("access_token", Some "T1");
                    ("refresh_token", Some "R1") ]))).
  split; vm_compute; reflexivity.
Qed.

(** [r || ''] is [r] for a string [r]. *)
Lemma or_str_string (r : string) : Js.or_str (Some r) "" = r.
Proof.
  unfold Js.or_str, Js.truthy.
  destruct (String.eqb r "") eqn:Hr; simpl; [|reflexivity].
  apply String.eqb_eq in Hr. by subst r.
Qed.

(** The block [upsertToken] is what [persist] runs when the pool is
    there. *)
Lemma upsertToken_db x u a r s :
  storage_ok x s = true ->
  db (snd (upsertToken x u a r s))
  = match Db.upsert (db_now x) u a (Js.or_str r "") (db s) with
    | inr d' => d'
    | inl _ => db s
    end
  /\ dbPool (snd (upsertToken x u a r s)) = dbPool s.
Proof.
  intros Hok.
  assert (exists pool, dbPool s = Some pool) as [pool Hpool].
  { unfold storage_ok in Hok. apply andb_true_iff in Hok as [Hok _].
    apply andb_true_iff in Hok as [Hok _]. by apply bool_decide_eq_true in Hok. }
  assert (persist ∅ x u a r s = upsertToken x u a r s) as <-.
  { unfold persist, bind, gets. by rewrite Hpool. }
  split.
  - by rewrite persist_db, Hok.
  - destruct (persist_returns ∅ x u a r s) as (s' & evs & Hrun & _ & Hsame & _).
    by rewrite Hrun.
Qed.

(** C6. Two upserts for the same user that both go through leave
    exactly one row for that user, with the access and refresh tokens
    of the second; and whatever requests are served afterwards, the
    table keeps at most one row per [user_id]. *)
Theorem upsert_twice env x1 x2 s u a1 r1 a2 r2 :
  unique_user_ids (db s) ->
  storage_ok x1 s = true ->
  storage_ok x2 s = true ->
  (exists row,
     rows_of u
       (db (snd (upsertToken x2 (Some u) (Some a2) (Some r2)
                   (snd (upsertToken x1 (Some u) (Some a1) (Some r1) s)))))
     = [row]
     /\ Db.access_token row = a2
     /\ Db.refresh_token row = Some r2)
  /\ (forall s',
        rtc (step env)
          (snd (upsertToken x2 (Some u) (Some a2) (Some r2)
                  (snd (upsertToken x1 (Some u) (Some a1) (Some r1) s))))
          s' ->
        unique_user_ids (db s')).
Proof.
  intros Huniq Hok1 Hok2.
  destruct (upsertToken_db x1 (Some u) (Some a1) (Some r1) s Hok1) as [Hdb1 Hpool1].
  set (s1 := snd (upsertToken x1 (Some u) (Some a1) (Some r1) s)) in *.
  assert (storage_ok x2 s1 = true) as Hok2'.
  { unfold storage_ok in *. by rewrite Hpool1. }
  destruct (upsertToken_db x2 (Some u) (Some a2) (Some r2) s1 Hok2') as [Hdb2 _].
  set (s2 := snd (upsertToken x2 (Some u) (Some a2) (Some r2) s1)) in *.
  rewrite or_str_string in Hdb1, Hdb2.
  destruct (DbFacts.upsert_defined (db_now x1) u a1 r1 (db s)) as [d1 Hup1].
  rewrite Hup1 in Hdb1.
  destruct (DbFacts.upsert_defined (db_now x2) u a2 r2 (db s1)) as [d2 Hup2].
  rewrite Hup2 in Hdb2.
  assert (unique_user_ids (db s1)) as Huniq1.
  { rewrite Hdb1. by eapply DbFacts.upsert_unique. }
  assert (unique_user_ids (db s2)) as Huniq2.
  { rewrite Hdb2. by eapply DbFacts.upsert_unique. }
  split.
  - destruct (DbFacts.unique_rows_of u (Db.Tokens (db s2))) as [row Hrow].
    + exact Huniq2.
    + rewrite Hdb2. by eapply DbFacts.upsert_exists.
    + exists row. split; [exact Hrow|].
      assert (In row (List.filter (Db.has_user u) (Db.Tokens (db s2)))) as Hin.
      { unfold rows_of in Hrow. rewrite Hrow. by left. }
      apply filter_In in Hin as [Hin Hu].
      eapply DbFacts.upsert_values; [exact Hup2 | | exact Hu].
      rewrite <- Hdb2. by apply list_elem_of_In.
  - intros s' Hsteps. by eapply steps_unique.
Qed.

Lemma upsert_twice_witness :
  exists row,
    rows_of "U1"
      (db (snd (upsertToken Sample.x_ok (Some "U1") (Some "T2") (Some "R2")
                  (snd (upsertToken Sample.x_ok (Some "U1") (Some "T1") (Some "R1")
                          Sample.s_U1)))))
    = [row]
    /\ Db.access_token row = "T2"
    /\ Db.refresh_token row = Some "R2".
Proof.
  apply (upsert_twice ∅ Sample.x_ok Sample.x_ok Sample.s_U1 "U1" "T1" "R1" "T2" "R2").
  - unfold unique_user_ids. vm_compute. apply NoDup_singleton.
  - reflexivity.
  - reflexivity.
Defined.

(** C9, as amended. After a successful exchange whose reply omits
    [refresh_token]:
    - when the upsert goes through, the user has a row in [Tokens] and
      every row of the user holds the empty string as refresh token;
    - when the pool is [null] and the record goes to the fallback file,
      the line written holds [null] as [refresh_token]. *)
Theorem absent_refresh_token_stored env x req s tok usr u a :
  has_code req = true ->
  configured env = true ->
  exchange env x req = inr tok ->
  profile x tok = inr usr ->
  Discord.id usr = Some u ->
  Discord.access_token tok = Some a ->
  Discord.refresh_token tok = None ->
  (storage_ok x s = true ->
   (exists row,
      row ∈ Db.Tokens (db (serve (callback env x) req s)) /\ Db.user_id row = u)
   /\ (forall row,
         row ∈ Db.Tokens (db (serve (callback env x) req s)) ->
         Db.user_id row = u ->
         Db.refresh_token row = Some ""))
  /\ (dbPool s = None ->
      env !! "FILE_FALLBACK" = Some "true" ->
      append_ok x = true ->
      exists line,
        tokens_log (serve (callback env x) req s)
        = Some (default "" (tokens_log s) +:+ (line +:+ Js.lf))
        /\ Json.read_object line
           = Some [ ("created_at", Some (now x));
                    ("user_id", Some u);
                    ("access_token", Some a);
                    ("refresh_token", None) ]).
Proof.
  intros Hcode Hcfg Hex Hpr Hu Ha Hr. split.
  - intros Hok.
    rewrite (serve_callback_success env x req s tok usr) by assumption.
    unfold answered. simpl. rewrite persist_db.
    change (storage_ok x (fetched env req tok s)) with (storage_ok x s).
    change (db (fetched env req tok s)) with (db s).
    rewrite Hok, Hu, Ha, Hr.
    change (Js.or_str None "") with "".
    destruct (DbFacts.upsert_defined (db_now x) u a "" (db s)) as [d' Hup].
    rewrite Hup. split.
    + pose proof (DbFacts.upsert_exists _ _ _ _ _ _ Hup) as Hex'.
      apply existsb_exists in Hex' as (row & Hin & Hrow).
      exists row. split; [by apply list_elem_of_In | by apply DbFacts.has_user_eq].
    + intros row Hin Hrow.
      apply (DbFacts.upsert_values _ _ _ _ _ _ row Hup Hin).
      by apply DbFacts.has_user_eq.
  - intros Hpool Hflag Hwrite.
    destruct (file_fallback_line env x req s tok usr u a) as (line & Hlog & _ & Hread);
      try assumption.
    exists line. split; [exact Hlog|]. by rewrite Hread, Hr.
Qed.

Lemma absent_refresh_token_stored_witness :
  (exists row,
     row ∈ Db.Tokens (db (serve (callback Sample.env_db Sample.x_no_refresh)
                             Sample.req_code Sample.s_U1))
     /\ Db.user_id row = "U1")
  /\ (forall row,
        row ∈ Db.Tokens (db (serve (callback Sample.env_db Sample.x_no_refresh)
                                Sample.req_code Sample.s_U1)) ->
        Db.user_id row = "U1" ->
        Db.refresh_token row = Some "").
Proof.
  apply (absent_refresh_token_stored Sample.env_db Sample.x_no_refresh Sample.req_code
           Sample.s_U1 Sample.tokens_T1 Sample.user_U1 "U1" "T1");
    reflexivity.
Defined.

(** C9, as stated, fails on the fallback path: the record stored for a
    reply without [refresh_token] holds [null], not the empty string. *)
Lemma fallback_stores_null :
  exchange Sample.env_fallback Sample.x_no_refresh Sample.req_code
  = inr Sample.tokens_T1
  /\ profile Sample.x_no_refresh Sample.tokens_T1 = inr Sample.user_U1
  /\ Discord.refresh_token Sample.tokens_T1 = None
  /\ exists line fields,
       tokens_log (serve (callback Sample.env_fallback Sample.x_no_refresh)
                     Sample.req_code Sample.s_init)
       = Some (line +:+ Js.lf)
       /\ Json.read_object line = Some fields
       /\ fields !! 3%nat = Some ("refresh_token", None)
       /\ ("refresh_token", Some "") ∉ fields.
Proof.
  repeat split; try reflexivity.
  exists (Json.stringify
            (Json.JObj
               (Json.flat
                  [ ("created_at", Some "2024-05-01T12:00:00.000Z");
                    ("user_id", Some "U1");
                    ("access_token", Some "T1");
                    ("refresh_token", None) ]))).
  eexists. split; [vm_compute; reflexivity|].
  split; [vm_compute; reflexivity|].
  split; [reflexivity|].
  intros Hin. repeat (apply elem_of_cons in Hin as [Hin|Hin]; [discriminate|]).
  inversion Hin.
Qed.

(** * Further properties *)

(** ** More on the table *)

Module DbMore.
Import Db.

(** The statement leaves the rows of the other users alone. *)
Lemma upsert_other now u a r d d' v :
  upsert now u a r d = inr d' ->
  u <> Some v ->
  List.filter (has_user v) (Tokens d') = List.filter (has_user v) (Tokens d).
Proof.
  unfold upsert. destruct u as [u|], a as [a|]; try discriminate.
  intros Hup Hne. assert (has_user v
    {| id := auto_increment d; user_id := u; access_token := a;
       refresh_token := Some r; created_at := now |} = false) as Hnew.
  { unfold has_user. simpl. apply String.eqb_neq. congruence. }
  destruct (existsb (has_user u) (Tokens d)); injection Hup as <-; simpl.
  - induction (Tokens d) as [|row rows IH]; simpl; [reflexivity|].
    assert (has_user v (update u a r now row) = has_user v row) as Hsame.
    { unfold has_user. by rewrite DbFacts.update_user_id. }
    rewrite Hsame. destruct (has_user v row) eqn:Hv; [|exact IH].
    assert (has_user u row = false) as Hu.
    { unfold has_user in *. apply String.eqb_eq in Hv. apply String.eqb_neq.
      congruence. }
    unfold update at 1. rewrite Hu. by rewrite IH.
  - rewrite List.filter_app. simpl. rewrite Hnew. apply app_nil_r.
Qed.

(** The statement adds a row exactly when the user had none. *)
Lemma upsert_length now u a r d d' :
  upsert now (Some u) (Some a) r d = inr d' ->
  length (Tokens d')
  = length (Tokens d) + (if existsb (has_user u) (Tokens d) then 0 else 1).
Proof.
  unfold upsert. destruct (existsb (has_user u) (Tokens d)); intros [= <-]; simpl.
  - rewrite length_map. lia.
  - rewrite length_app. reflexivity.
Qed.

End DbMore.

(** ** The start of the process, when the database answers *)

(** X1. With the four database fields set and a database that accepts
    the connection and the schema statement, the start of the process
    leaves [dbPool] at the pool created from the environment (its port
    is [MYSQLPORT], or 3306 when that is unset), acquires one
    connection, runs the one [CREATE TABLE IF NOT EXISTS], releases the
    connection, never calls [dbPool.end()] and leaves the rows alone;
    a failing release does not change this. *)
Theorem startup_enables env x s :
  hasDbConfig env = true ->
  conn_ok x = true ->
  query_ok x = true ->
  dbPool (snd (startup env x s)) = Some (pool_of env)
  /\ (env !! "MYSQLPORT" = None -> port (pool_of env) = "3306")
  /\ new_events s (snd (startup env x s))
     = [CreatePool (pool_of env); GetConnection; Query Db.CreateTable; Release]
  /\ db (snd (startup env x s)) = db s.
Proof.
  intros Hcfg Hconn Hquery. split; [|split; [|split]].
  - unfold startup, createPool, initDatabase, pool_of. rewrite Hcfg.
    unfold_m. simpl. rewrite Hconn. simpl. rewrite Hquery. simpl.
    destruct (release_ok x); reflexivity.
  - intros Hport. unfold pool_of. simpl. by rewrite Hport.
  - apply new_events_app. rewrite startup_trace. unfold startup_events.
    by rewrite Hcfg, Hconn, Hquery.
  - unfold startup, createPool, initDatabase. rewrite Hcfg.
    unfold_m. simpl. rewrite Hconn. simpl. rewrite Hquery. simpl.
    destruct (release_ok x); reflexivity.
Qed.

Lemma startup_enables_witness :
  dbPool (snd (startup Sample.env_db Sample.x_ok Sample.s_init))
  = Some (pool_of Sample.env_db)
  /\ port (pool_of Sample.env_db) = "3306"
  /\ new_events Sample.s_init (snd (startup Sample.env_db Sample.x_ok Sample.s_init))
     = [CreatePool (pool_of Sample.env_db); GetConnection; Query Db.CreateTable;
        Release].
Proof.
  destruct (startup_enables Sample.env_db Sample.x_ok Sample.s_init
              eq_refl eq_refl eq_refl) as (Hpool & Hport & Hev & _).
  split; [exact Hpool|]. split; [exact (Hport eq_refl) | exact Hev].
Defined.

(** ** Connections *)

(** X2. No run leaks a connection: the start of the process, a request
    to [/callback] and a request to [/check] each ask for at most one
    connection, and release it exactly once when they obtained it;
    this holds when the statement fails, too. *)
Theorem connections_released env x req s :
  released_once x (new_events s (snd (startup env x s)))
  /\ released_once x (new_events s (serve (callback env x) req s))
  /\ released_once x (new_events s (serve (check x) req s)).
Proof.
  split; [|split].
  - rewrite (new_events_app _ _ _ (startup_trace env x s)).
    unfold startup_events, released_once.
    destruct (conn_ok x) eqn:Hc, (hasDbConfig env), (query_ok x);
      simpl; split; (lia || reflexivity).
  - rewrite (new_events_app _ _ _ (serve_callback_trace env x req s)).
    unfold callback_events, persist_events, released_once.
    destruct (conn_ok x) eqn:Hc, (has_code req), (configured env),
      (exchange env x req) as [e|tok];
      simpl; try (split; (lia || reflexivity)).
    all: destruct (profile x tok) as [e|usr], (dbPool s);
      simpl; try case_bool_decide; simpl; split; (lia || reflexivity).
  - rewrite (new_events_app _ _ _ (serve_check_trace x req s)).
    unfold check_events, released_once.
    destruct (conn_ok x) eqn:Hc, (Js.truthy (query req !! "user_id")), (dbPool s);
      simpl; split; (lia || reflexivity).
Qed.

Lemma connections_released_witness :
  released_once Sample.x_query_fails
    (new_events Sample.s_enabled
       (serve (callback Sample.env_db Sample.x_query_fails) Sample.req_code
          Sample.s_enabled))
  /\ List.filter is_release
       (new_events Sample.s_enabled
          (serve (callback Sample.env_db Sample.x_query_fails) Sample.req_code
             Sample.s_enabled))
     = [Release].
Proof.
  split; [|reflexivity].
  apply (connections_released Sample.env_db Sample.x_query_fails Sample.req_code
           Sample.s_enabled).
Defined.

(** ** What a request to [/callback] stores, and where *)

Section Stores.
Context (env : gmap string string) (x : Ext).

Lemma serve_callback_tokens_log req s :
  tokens_log (serve (callback env x) req s) = tokens_log s
  \/ (dbPool s = None
      /\ exists data,
           tokens_log (serve (callback env x) req s)
           = Some (default "" (tokens_log s) +:+ data)).
Proof.
  rewrite serve_callback_cases. repeat case_match; auto.
  unfold answered. simpl. rewrite persist_tokens_log.
  change (dbPool (fetched env req _ s)) with (dbPool s).
  change (tokens_log (fetched env req _ s)) with (tokens_log s).
  destruct (dbPool s); auto. case_match; eauto.
Qed.

Lemma serve_callback_db_disabled req s :
  dbPool s = None -> db (serve (callback env x) req s) = db s.
Proof.
  intros Hpool. rewrite serve_callback_cases. repeat case_match; auto.
  unfold answered. simpl. rewrite persist_db.
  unfold storage_ok. change (dbPool (fetched env req _ s)) with (dbPool s).
  rewrite Hpool. reflexivity.
Qed.

End Stores.

(** X3. A request to [/callback] that does not get through both
    provider calls (no code, incomplete configuration, a failed exchange
    or a failed profile fetch) stores nothing: the table and the
    fallback file are as before. *)
Theorem failure_stores_nothing env x req s :
  has_code req = false \/ configured env = false
  \/ (exists e, fails_with env x req e) ->
  db (serve (callback env x) req s) = db s
  /\ tokens_log (serve (callback env x) req s) = tokens_log s
  /\ List.filter is_database (new_events s (serve (callback env x) req s)) = []
  /\ List.filter is_append (new_events s (serve (callback env x) req s)) = [].
Proof.
  intros Hfail.
  rewrite (new_events_app _ _ _ (serve_callback_trace env x req s)).
  rewrite serve_callback_cases. unfold callback_events.
  destruct (has_code req); simpl; [|auto].
  destruct (configured env); simpl; [|auto].
  destruct Hfail as [Hfail|[Hfail|(e & [Hex|(tok & Hex & Hpr)])]];
    try discriminate; rewrite Hex; [auto|]. rewrite Hpr. auto.
Qed.

Lemma failure_stores_nothing_witness :
  db (serve (callback Sample.env_db Sample.x_invalid_grant) Sample.req_code Sample.s_U1)
  = db Sample.s_U1
  /\ tokens_log (serve (callback Sample.env_db Sample.x_invalid_grant) Sample.req_code
                  Sample.s_U1)
     = tokens_log Sample.s_U1.
Proof.
  destruct (failure_stores_nothing Sample.env_db Sample.x_invalid_grant Sample.req_code
              Sample.s_U1) as (Hdb & Hlog & _).
  - right. right. exists Sample.invalid_grant. left. reflexivity.
  - split; assumption.
Defined.

(** X4. The two stores exclude each other.  While the pool is there, a
    request to [/callback] never writes the fallback file, not even when
    the upsert fails and [FILE_FALLBACK] is ['true']; while the pool is
    [null], it never touches the table and makes no database call. *)
Theorem stores_exclusive env x req s :
  (is_Some (dbPool s) ->
   tokens_log (serve (callback env x) req s) = tokens_log s
   /\ List.filter is_append (new_events s (serve (callback env x) req s)) = [])
  /\ (dbPool s = None ->
      db (serve (callback env x) req s) = db s
      /\ List.filter is_database (new_events s (serve (callback env x) req s)) = []).
Proof.
  rewrite (new_events_app _ _ _ (serve_callback_trace env x req s)).
  split.
  - intros [pool Hpool]. split.
    + destruct (serve_callback_tokens_log env x req s) as [H|[Hnone _]];
        [exact H | congruence].
    + unfold callback_events, persist_events. rewrite Hpool.
      repeat case_match; reflexivity.
  - intros Hpool. split; [by apply serve_callback_db_disabled|].
    unfold callback_events, persist_events. rewrite Hpool.
    repeat case_match; reflexivity.
Qed.

Lemma stores_exclusive_witness :
  tokens_log
    (serve (callback (<["FILE_FALLBACK" := "true"]> Sample.env_db) Sample.x_query_fails)
       Sample.req_code Sample.s_enabled)
  = tokens_log Sample.s_enabled
  /\ db (serve (callback Sample.env_fallback Sample.x_ok) Sample.req_code Sample.s_init)
     = db Sample.s_init.
Proof.
  split.
  - apply (stores_exclusive (<["FILE_FALLBACK" := "true"]> Sample.env_db)
             Sample.x_query_fails Sample.req_code Sample.s_enabled).
    vm_compute. eauto.
  - apply (stores_exclusive Sample.env_fallback Sample.x_ok Sample.req_code
             Sample.s_init).
    reflexivity.
Defined.

(** ** Sequences of requests *)

Lemma step_disabled env s s' :
  step env s s' ->
  dbPool s = None ->
  dbPool s' = None
  /\ db s' = db s
  /\ List.filter is_database (trace s') = List.filter is_database (trace s).
Proof.
  intros Hstep Hpool. split; [by rewrite (step_dbPool env s s' Hstep)|].
  destruct Hstep as [x req s|req s|x req s].
  - split; [by apply serve_callback_db_disabled|].
    rewrite serve_callback_trace, List.filter_app.
    unfold callback_events, persist_events. rewrite Hpool.
    repeat case_match; simpl; by rewrite app_nil_r.
  - split; reflexivity.
  - split; [apply serve_check_frame|].
    rewrite serve_check_trace, List.filter_app.
    unfold check_events. rewrite Hpool.
    repeat case_match; simpl; by rewrite app_nil_r.
Qed.

(** X5. A process whose pool is [null] stays that way: whatever
    requests it serves, [dbPool] remains [null], the table is never
    changed and no call to the database driver is ever made. *)
Theorem disabled_stays_disabled env s s' :
  dbPool s = None ->
  rtc (step env) s s' ->
  dbPool s' = None
  /\ db s' = db s
  /\ List.filter is_database (trace s') = List.filter is_database (trace s).
Proof.
  intros Hpool Hsteps. induction Hsteps as [s|s s1 s' Hstep _ IH]; [auto|].
  destruct (step_disabled env s s1 Hstep Hpool) as (Hpool1 & Hdb1 & Htr1).
  destruct (IH Hpool1) as (Hpool' & Hdb' & Htr').
  split; [exact Hpool'|]. split; congruence.
Qed.

Lemma disabled_stays_disabled_witness :
  let s1 := serve (callback Sample.env_fallback Sample.x_ok) Sample.req_code
              Sample.s_init in
  let s2 := serve (check Sample.x_ok) (Sample.req_user "U1") s1 in
  dbPool s2 = None /\ db s2 = db Sample.s_init
  /\ List.filter is_database (trace s2) = [].
Proof.
  apply (disabled_stays_disabled Sample.env_fallback Sample.s_init).
  - reflexivity.
  - eapply rtc_l; [apply step_callback|]. apply rtc_once. apply step_check.
Defined.

Lemma step_tokens_log env s s' :
  step env s s' ->
  exists suffix,
    default "" (tokens_log s') = default "" (tokens_log s) +:+ suffix
    /\ (is_Some (tokens_log s) -> is_Some (tokens_log s')).
Proof.
  destruct 1 as [x req s|req s|x req s].
  - destruct (serve_callback_tokens_log env x req s) as [->|(_ & data & ->)].
    + exists "". by rewrite JsonFacts.append_nil_r.
    + exists data. simpl. eauto.
  - exists "". simpl. by rewrite JsonFacts.append_nil_r.
  - destruct (serve_check_frame x req s) as (_ & _ & ->).
    exists "". by rewrite JsonFacts.append_nil_r.
Qed.

(** X6. The fallback file is append-only: over any sequence of
    requests its earlier contents remain a prefix of its contents, and
    once it exists it is never removed. *)
Theorem tokens_log_append_only env s s' :
  rtc (step env) s s' ->
  exists suffix,
    default "" (tokens_log s') = default "" (tokens_log s) +:+ suffix
    /\ (is_Some (tokens_log s) -> is_Some (tokens_log s')).
Proof.
  induction 1 as [s|s s1 s' Hstep _ (suffix2 & Heq2 & Hex2)].
  - exists "". by rewrite JsonFacts.append_nil_r.
  - destruct (step_tokens_log env s s1 Hstep) as (suffix1 & Heq1 & Hex1).
    exists (suffix1 +:+ suffix2). split; [|auto].
    by rewrite Heq2, Heq1, JsonFacts.append_assoc.
Qed.

Lemma tokens_log_append_only_witness :
  let s1 := serve (callback Sample.env_fallback Sample.x_ok) Sample.req_code
              Sample.s_init in
  let s2 := serve (callback Sample.env_fallback Sample.x_no_refresh) Sample.req_code s1 in
  exists suffix,
    default "" (tokens_log s2) = default "" (tokens_log s1) +:+ suffix
    /\ (is_Some (tokens_log s1) -> is_Some (tokens_log s2)).
Proof.
  apply (tokens_log_append_only Sample.env_fallback).
  apply rtc_once. apply step_callback.
Defined.

(** ** The responses of [/callback] *)

(** X7. Outside the debug mode the response of [/callback] is one of
    five fixed responses, whatever the provider, the database or the
    file system answer: nothing of an error reaches the client. *)
Theorem error_details_hidden env x req s :
  env !! "DEBUG" <> Some "true" ->
  exists r, reply (callback env x) req s = Some r /\ r ∈ fixed_replies.
Proof.
  intros Hdebug. unfold reply. rewrite serve_callback_cases.
  assert (forall e, failure_response env e ∈ fixed_replies) as Hfail.
  { intros e. unfold failure_response, fixed_replies.
    rewrite bool_decide_eq_false_2 by exact Hdebug.
    destruct (is_invalid_grant _); set_solver. }
  unfold fixed_replies in *.
  repeat case_match; simpl; eexists; (split; [reflexivity|]);
    first [apply Hfail | set_solver].
Qed.

Lemma error_details_hidden_witness :
  exists r,
    reply (callback Sample.env_min Sample.x_invalid_grant) Sample.req_code Sample.s_init
    = Some r
    /\ r ∈ fixed_replies.
Proof.
  apply (error_details_hidden Sample.env_min Sample.x_invalid_grant Sample.req_code
           Sample.s_init).
  vm_compute. discriminate.
Defined.

(** The test of the [catch], on the error itself. *)
Lemma is_invalid_grant_says (e : AxiosError) :
  is_invalid_grant (EAxios e) = true <-> says_invalid_grant e.
Proof.
  unfold is_invalid_grant, says_invalid_grant. split.
  - destruct (response e) as [data|]; [|discriminate].
    intros Htest. apply andb_true_iff in Htest as [_ Htest].
    exists data. split; [reflexivity|].
    destruct (Json.prop data "error") as [[| | | str | |]|]; try discriminate.
    apply String.eqb_eq in Htest. by subst str.
  - intros (data & -> & Herr). rewrite Herr.
    destruct data; try discriminate. reflexivity.
Qed.

(** X8. Outside the debug mode a failure of either provider call, the
    profile fetch as well as the token exchange, is answered 400 with
    the restart message when the error carries a response whose [error]
    is ['invalid_grant'], and with the generic 500 in every other case:
    a response with another [error] or none, or an error without a
    response (a network failure). *)
Theorem failure_status env x req s e :
  has_code req = true ->
  configured env = true ->
  env !! "DEBUG" <> Some "true" ->
  fails_with env x req e ->
  ((exists data,
      response e = Some data
      /\ Json.prop data "error" = Some (Json.JStr "invalid_grant")) ->
   reply (callback env x) req s = Some restart_flow)
  /\ ((forall data,
         response e = Some data ->
         Json.prop data "error" <> Some (Json.JStr "invalid_grant")) ->
      reply (callback env x) req s = Some generic_failure)
  /\ (response e = None -> reply (callback env x) req s = Some generic_failure).
Proof.
  intros Hcode Hcfg Hdebug Hfails.
  assert (reply (callback env x) req s
          = Some (if is_invalid_grant (EAxios e) then restart_flow
                  else generic_failure)) as ->.
  { unfold reply.
    assert (serve (callback env x) req s
            = answered (failure_response env e)
                (match exchange env x req with
                 | inl _ => posted env req s
                 | inr tok => fetched env req tok s
                 end)) as ->.
    { destruct Hfails as [Hex|(tok & Hex & Hpr)]; rewrite Hex.
      - by apply serve_callback_exchange_fails.
      - by apply serve_callback_profile_fails. }
    unfold failure_response. rewrite bool_decide_eq_false_2 by exact Hdebug.
    by destruct (is_invalid_grant (EAxios e)). }
  pose proof (is_invalid_grant_says e) as Hsays. unfold says_invalid_grant in Hsays.
  destruct (is_invalid_grant (EAxios e)); split; [|split| |split].
  - reflexivity.
  - intros Hother. destruct (proj1 Hsays eq_refl) as (data & Hresp & Herr).
    by destruct (Hother data Hresp).
  - intros Hnone. destruct (proj1 Hsays eq_refl) as (data & Hresp & _). congruence.
  - intros Hgrant. by apply Hsays in Hgrant.
  - reflexivity.
  - reflexivity.
Qed.

Lemma failure_status_witness :
  reply (callback Sample.env_min
           {| token_reply := fun _ => inr Sample.tokens_T1_R1;
              user_reply := fun _ => inl Sample.invalid_grant;
              conn_ok := true; query_ok := true; release_ok := true; end_ok := true;
              append_ok := true; now := ""; db_now := "" |})
    Sample.req_code Sample.s_init
  = Some restart_flow
  /\ reply (callback Sample.env_min Edge.x_access_denied) Sample.req_code Sample.s_init
     = Some generic_failure.
Proof.
  split.
  - eapply (proj1 (failure_status Sample.env_min _ Sample.req_code Sample.s_init
                     Sample.invalid_grant eq_refl eq_refl _ _)).
    eexists. split; reflexivity.
  - eapply (proj1 (proj2 (failure_status Sample.env_min Edge.x_access_denied
                            Sample.req_code Sample.s_init Edge.access_denied
                            eq_refl eq_refl _ _))).
    intros data [= <-]. discriminate.
  Unshelve.
  all: first [ by (vm_compute; discriminate)
             | right; exists Sample.tokens_T1_R1; split; reflexivity ].
Defined.

(** The handler of [/callback] returns normally. *)
Lemma callback_returns env x req s :
  fst (callback env x req (fresh s)) = Ok tt.
Proof.
  unfold callback.
  destruct (Js.truthy (query req !! "code")); [|reflexivity].
  destruct (Js.truthy (env !! "REDIRECT_URI")); [|reflexivity].
  destruct (Js.truthy (env !! "CLIENT_ID")); [|reflexivity].
  destruct (Js.truthy (env !! "CLIENT_SECRET")); [|reflexivity].
  cbn [negb orb].
  unfold try_catch, axios_post, axios_get, emit, modify, bind at 1 2 3 4 5. simpl.
  destruct (token_reply x _) as [e|tok]; simpl; [repeat case_match; reflexivity|].
  destruct (user_reply x _) as [e|usr]; simpl; [repeat case_match; reflexivity|].
  match goal with
  | |- context [persist env x ?u ?a ?r ?s0] =>
      destruct (persist_returns env x u a r s0) as (s' & evs & Hp & Hres & _)
  end.
  unfold bind. rewrite Hp. simpl. unfold res_send, res_end. rewrite Hres.
  reflexivity.
Qed.

(** X9. Every request to [/callback] is answered, exactly once and
    with status 200, 400 or 500, and its handler never throws: no error
    of the provider, of the database or of the file system escapes
    it. *)
Theorem callback_always_answers env x req s :
  fst (callback env x req (fresh s)) = Ok tt
  /\ exists r,
       reply (callback env x) req s = Some r
       /\ status r ∈ [200; 400; 500]%Z.
Proof.
  split; [apply callback_returns|].
  unfold reply. rewrite serve_callback_cases.
  assert (forall e, status (failure_response env e) ∈ [200; 400; 500]%Z) as Hfail.
  { intros e. unfold failure_response. repeat case_match; simpl; set_solver. }
  repeat case_match; simpl; eexists; (split; [reflexivity|]);
    first [apply Hfail | simpl; set_solver].
Qed.

(** X10. [/check] releases its connection outside any [try]: its
    handler throws exactly when it obtained a connection whose release
    fails, and then the response has already been sent. *)
Theorem check_rejects_after_reply x req s :
  fst (check x req (fresh s))
  = (if Js.truthy (query req !! "user_id")
        && bool_decide (is_Some (dbPool s))
        && conn_ok x && negb (release_ok x)
     then Throw (ESql "release")
     else Ok tt)
  /\ is_Some (reply (check x) req s).
Proof.
  split; [|rewrite check_answer; eauto].
  unfold check.
  destruct (Js.truthy (query req !! "user_id")); [|reflexivity].
  destruct (dbPool s) as [pool|] eqn:Hpool.
  - rewrite bool_decide_eq_true_2 by eauto.
    unfold_m. simpl. rewrite Hpool. simpl.
    destruct (conn_ok x), (query_ok x), (release_ok x); simpl; reflexivity.
  - rewrite bool_decide_eq_false_2 by (intros [? ?]; discriminate).
    unfold_m. simpl. rewrite Hpool. reflexivity.
Qed.

(** ** Storing and looking up *)

Section Lookup.
Context (env : gmap string string) (x : Ext).

(** The table after a successful exchange whose upsert goes through. *)
Lemma db_after_upsert req s tok usr u a :
  has_code req = true ->
  configured env = true ->
  exchange env x req = inr tok ->
  profile x tok = inr usr ->
  Discord.id usr = Some u ->
  Discord.access_token tok = Some a ->
  storage_ok x s = true ->
  Db.upsert (db_now x) (Some u) (Some a)
    (Js.or_str (Discord.refresh_token tok) "") (db s)
  = inr (db (serve (callback env x) req s)).
Proof.
  intros Hcode Hcfg Hex Hpr Hu Ha Hok.
  rewrite (serve_callback_success env x req s tok usr) by assumption.
  unfold answered. simpl. rewrite persist_db.
  change (storage_ok x (fetched env req tok s)) with (storage_ok x s).
  change (db (fetched env req tok s)) with (db s).
  rewrite Hok, Hu, Ha.
  destruct (DbFacts.upsert_defined (db_now x) u a
              (Js.or_str (Discord.refresh_token tok) "") (db s)) as [d' Hup].
  by rewrite Hup.
Qed.

End Lookup.

(** X11. Storing then looking up: after a successful exchange whose
    upsert goes through, a [/check] for the user the provider named
    answers 200 with the body [{"hasToken": true}] whenever its own
    lookup goes through. *)
Theorem stored_then_found env x x' req req' s tok usr u a :
  has_code req = true ->
  configured env = true ->
  exchange env x req = inr tok ->
  profile x tok = inr usr ->
  Discord.id usr = Some u ->
  Discord.access_token tok = Some a ->
  storage_ok x s = true ->
  storage_ok x' s = true ->
  query req' !! "user_id" = Some u ->
  u <> "" ->
  reply (check x') req' (serve (callback env x) req s)
  = Some {| status := 200;
            body := JsonBody (Json.JObj [("hasToken", Json.JBool true)]) |}.
Proof.
  intros Hcode Hcfg Hex Hpr Hu Ha Hok Hok' Hq Hne.
  pose proof (db_after_upsert env x req s tok usr u a
                Hcode Hcfg Hex Hpr Hu Ha Hok) as Hup.
  rewrite check_answer, Hq. simpl.
  assert (String.eqb u "" = false) as -> by by apply String.eqb_neq.
  assert (storage_ok x' (serve (callback env x) req s) = true) as ->.
  { unfold storage_ok in *. by rewrite serve_callback_dbPool. }
  by rewrite (DbFacts.upsert_exists _ _ _ _ _ _ Hup).
Qed.

Lemma stored_then_found_witness :
  reply (check Sample.x_ok) (Sample.req_user "U1")
    (serve (callback Sample.env_db Sample.x_ok) Sample.req_code Sample.s_enabled)
  = Some {| status := 200;
            body := JsonBody (Json.JObj [("hasToken", Json.JBool true)]) |}.
Proof.
  apply (stored_then_found Sample.env_db Sample.x_ok Sample.x_ok Sample.req_code
           (Sample.req_user "U1") Sample.s_enabled Sample.tokens_T1_R1 Sample.user_U1
           "U1" "T1");
    first [reflexivity | discriminate].
Defined.

(** X12. A request to [/callback] changes the rows of no user but the
    one the provider named: the rows of every other [user_id] are as
    before, so [/check] answers for them as before. *)
Theorem other_users_untouched env x x' req req' s tok usr v :
  exchange env x req = inr tok ->
  profile x tok = inr usr ->
  Discord.id usr <> Some v ->
  query req' !! "user_id" = Some v ->
  rows_of v (db (serve (callback env x) req s)) = rows_of v (db s)
  /\ reply (check x') req' (serve (callback env x) req s) = reply (check x') req' s.
Proof.
  intros Hex Hpr Hne Hq.
  assert (rows_of v (db (serve (callback env x) req s)) = rows_of v (db s)) as Hrows.
  { rewrite serve_callback_cases, Hex, Hpr.
    destruct (has_code req), (configured env); simpl; try reflexivity.
    rewrite persist_db.
    change (db (fetched env req tok s)) with (db s).
    destruct (storage_ok _ _); [|reflexivity].
    destruct (Db.upsert _ _ _ _ _) as [msg|d'] eqn:Hup; [reflexivity|].
    by apply (DbMore.upsert_other _ _ _ _ _ _ v Hup). }
  split; [exact Hrows|].
  rewrite !check_answer, Hq. simpl.
  assert (storage_ok x' (serve (callback env x) req s) = storage_ok x' s) as ->.
  { unfold storage_ok. by rewrite serve_callback_dbPool. }
  assert (forall d, existsb (Db.has_user v) (Db.Tokens d)
                    = negb (Nat.eqb (length (rows_of v d)) 0)) as Hcount.
  { intros d. unfold rows_of. induction (Db.Tokens d) as [|row rows IH]; simpl;
      [reflexivity|]. destruct (Db.has_user v row); simpl; [reflexivity | exact IH]. }
  by rewrite !Hcount, Hrows.
Qed.

Lemma other_users_untouched_witness :
  rows_of "U1"
    (db (serve (callback Sample.env_db
                  {| token_reply := fun _ => inr Sample.tokens_T1_R1;
                     user_reply := fun _ => inr {| Discord.id := Some "U2" |};
                     conn_ok := true; query_ok := true; release_ok := true;
                     end_ok := true; append_ok := true; now := ""; db_now := "" |})
           Sample.req_code Sample.s_U1))
  = rows_of "U1" (db Sample.s_U1).
Proof.
  eapply (other_users_untouched Sample.env_db _ Sample.x_ok Sample.req_code
            (Sample.req_user "U1") Sample.s_U1 Sample.tokens_T1_R1
            {| Discord.id := Some "U2" |} "U1");
    first [reflexivity | discriminate].
Defined.

(** X13. The upsert never duplicates: after a successful exchange whose
    upsert goes through, the table has one more row when the user had
    none, and as many rows as before when the user had one. *)
Theorem upsert_row_count env x req s tok usr u a :
  has_code req = true ->
  configured env = true ->
  exchange env x req = inr tok ->
  profile x tok = inr usr ->
  Discord.id usr = Some u ->
  Discord.access_token tok = Some a ->
  storage_ok x s = true ->
  length (Db.Tokens (db (serve (callback env x) req s)))
  = length (Db.Tokens (db s))
    + (if existsb (Db.has_user u) (Db.Tokens (db s)) then 0 else 1).
Proof.
  intros Hcode Hcfg Hex Hpr Hu Ha Hok.
  eapply DbMore.upsert_length.
  by apply (db_after_upsert env x req s tok usr u a).
Qed.

Lemma upsert_row_count_witness :
  length (Db.Tokens (db (serve (callback Sample.env_db Sample.x_ok) Sample.req_code
                           Sample.s_U1)))
  = 1
  /\ length (Db.Tokens (db (serve (callback Sample.env_db Sample.x_ok) Sample.req_code
                              Sample.s_enabled)))
     = 1.
Proof.
  split.
  - apply (upsert_row_count Sample.env_db Sample.x_ok Sample.req_code Sample.s_U1
             Sample.tokens_T1_R1 Sample.user_U1 "U1" "T1");
      reflexivity.
  - apply (upsert_row_count Sample.env_db Sample.x_ok Sample.req_code Sample.s_enabled
             Sample.tokens_T1_R1 Sample.user_U1 "U1" "T1");
      reflexivity.
Defined.

(** X14. [/check] only reads: it calls no provider, and leaves
    [dbPool], the table and the fallback file as they are. *)
Theorem check_read_only x req s :
  dbPool (serve (check x) req s) = dbPool s
  /\ db (serve (check x) req s) = db s
  /\ tokens_log (serve (check x) req s) = tokens_log s
  /\ List.filter outbound (new_events s (serve (check x) req s)) = []
  /\ List.filter is_append (new_events s (serve (check x) req s)) = [].
Proof.
  destruct (serve_check_frame x req s) as (Hpool & Hdb & Hlog).
  rewrite (new_events_app _ _ _ (serve_check_trace x req s)).
  unfold check_events.
  repeat split; try assumption; repeat case_match; reflexivity.
Qed.

(** ** The earlier revision *)

Section Earlier.
Context (env : gmap string string) (x : Ext).
Local Arguments Db.upsert : simpl never.

Ltac unfold_rev1 :=
  unfold Rev1.saveToken, Rev1.release, Rev1.getConnection, conn_query, conn_release,
    axios_post, axios_get, emit, res_status, res_send, res_end,
    try_finally, try_catch, bind, ret, throw, gets, modify.

(** X15. In the earlier revision the response depends on the database:
    after a successful exchange and profile fetch the client gets the
    page only when the connection, the upsert and the release all go
    through, and the generic 500 otherwise; the row is stored as soon
    as the connection and the upsert go through, so a failing release
    gives a 500 although the token is stored. *)
Theorem rev1_success_needs_database req s tok usr u a :
  has_code req = true ->
  configured env = true ->
  exchange env x req = inr tok ->
  profile x tok = inr usr ->
  Discord.id usr = Some u ->
  Discord.access_token tok = Some a ->
  reply (Rev1.callback env x) req s
  = Some (if conn_ok x && query_ok x && release_ok x then page else generic_failure)
  /\ (conn_ok x && query_ok x = true ->
      Db.upsert (db_now x) (Some u) (Some a)
        (Js.or_str (Discord.refresh_token tok) "") (db s)
      = inr (db (serve (Rev1.callback env x) req s)))
  /\ (conn_ok x && query_ok x = false ->
      db (serve (Rev1.callback env x) req s) = db s).
Proof.
  unfold has_code, exchange, profile. intros Hcode Hcfg Hex Hpr Hu Ha.
  apply configured_true in Hcfg as (Hr & Hc & Hs).
  unfold reply, serve, Rev1.callback. rewrite Hcode, Hr, Hc, Hs. cbn [negb orb].
  destruct (DbFacts.upsert_defined (db_now x) u a
              (Js.or_str (Discord.refresh_token tok) "") (db s)) as [d' Hup].
  unfold_rev1. simpl. rewrite Hex. simpl. rewrite Hpr. simpl. rewrite Hu, Ha.
  destruct (conn_ok x), (query_ok x), (release_ok x); simpl;
    rewrite ?Hup; simpl; repeat split; intros; try discriminate; reflexivity.
Qed.

(** X16. In the earlier revision every failure of a provider call is
    answered with the generic 500, whatever [DEBUG] is set to and also
    when the provider says [invalid_grant], and nothing is stored. *)
Theorem rev1_failure_generic req s e :
  has_code req = true ->
  configured env = true ->
  fails_with env x req e ->
  reply (Rev1.callback env x) req s = Some generic_failure
  /\ db (serve (Rev1.callback env x) req s) = db s.
Proof.
  unfold has_code, fails_with, exchange, profile. intros Hcode Hcfg Hfails.
  apply configured_true in Hcfg as (Hr & Hc & Hs).
  unfold reply, serve, Rev1.callback. rewrite Hcode, Hr, Hc, Hs. cbn [negb orb].
  unfold_rev1. simpl.
  destruct Hfails as [Hex|(tok & Hex & Hpr)]; rewrite Hex; simpl;
    rewrite ?Hpr; simpl; split; reflexivity.
Qed.

End Earlier.

Lemma rev1_success_needs_database_witness :
  reply (Rev1.callback Sample.env_db Sample.x_query_fails) Sample.req_code
    Sample.s_enabled
  = Some generic_failure
  /\ reply (callback Sample.env_db Sample.x_query_fails) Sample.req_code
       Sample.s_enabled
     = Some page.
Proof.
  split; [|reflexivity].
  apply (rev1_success_needs_database Sample.env_db Sample.x_query_fails Sample.req_code
           Sample.s_enabled Sample.tokens_T1_R1 Sample.user_U1 "U1" "T1");
    reflexivity.
Defined.

Lemma rev1_failure_generic_witness :
  reply (Rev1.callback Sample.env_debug Sample.x_invalid_grant) Sample.req_code
    Sample.s_init
  = Some generic_failure.
Proof.
  apply (rev1_failure_generic Sample.env_debug Sample.x_invalid_grant Sample.req_code
           Sample.s_init Sample.invalid_grant);
    first [reflexivity | left; reflexivity].
Defined.

(** ** Degraded operation *)

(** X17. While the pool is [null], [/check] answers
    [{hasToken: false}] for every user, whatever the table holds and
    whatever requests were served in between. *)
Theorem disabled_check_false env x req s s' :
  dbPool s = None ->
  rtc (step env) s s' ->
  reply (check x) req s' = Some (has_token false).
Proof.
  intros Hpool Hsteps.
  assert (dbPool s' = None) as Hpool'.
  { induction Hsteps as [s|s s1 s' Hstep _ IH]; [exact Hpool|].
    apply IH. by rewrite (step_dbPool env s s1 Hstep). }
  rewrite check_answer. unfold storage_ok. rewrite Hpool'.
  rewrite bool_decide_eq_false_2 by (intros [? ?]; discriminate).
  by rewrite andb_false_r.
Qed.

Lemma disabled_check_false_witness :
  reply (check Sample.x_ok) (Sample.req_user "U1")
    (serve (callback Sample.env_fallback Sample.x_ok) Sample.req_code
       (set_dbPool None Sample.s_U1))
  = Some (has_token false).
Proof.
  apply (disabled_check_false Sample.env_fallback Sample.x_ok (Sample.req_user "U1")
           (set_dbPool None Sample.s_U1)).
  - reflexivity.
  - apply rtc_once. apply step_callback.
Defined.

(** X18. A required database field that is set to the empty string
    counts as missing: the start of the process leaves [dbPool] at
    [null] and makes no call. *)
Theorem empty_field_disables env x s k :
  k ∈ required_db_fields ->
  env !! k = Some "" ->
  dbPool (snd (startup env x s)) = None
  /\ trace (snd (startup env x s)) = trace s.
Proof.
  intros Hk Hempty.
  rewrite startup_disabled; [split; reflexivity|].
  apply (hasDbConfig_missing env k Hk). by rewrite Hempty.
Qed.

Lemma empty_field_disables_witness :
  dbPool (snd (startup (<["MYSQLHOST" := ""]> Sample.env_db) Sample.x_ok Sample.s_init))
  = None
  /\ trace (snd (startup (<["MYSQLHOST" := ""]> Sample.env_db) Sample.x_ok
                  Sample.s_init))
     = [].
Proof.
  apply (empty_field_disables (<["MYSQLHOST" := ""]> Sample.env_db) Sample.x_ok
           Sample.s_init "MYSQLHOST").
  - unfold required_db_fields. set_solver.
  - reflexivity.
Defined.
